(** * jweather: location search and weather display

    A shallow embedding of the two scripts of the repository:

    - [src/elements/scripts/location-search.js], the [LocationSearch] class
      (CSV loading, suggestions, NWS fetch and rendering), embedded in
      [Module LocationSearch];
    - the unnamed script whose header reads [// location-search.js]
      (diacritic-insensitive suggestions with highlighting), embedded in
      [Module Suggest].

    JavaScript strings are sequences of UTF-16 code units, numbers are
    modelled by exact rationals extended with NaN and the two infinities
    (binary64 rounding, overflow and the sign of zero are not modelled), and
    the DOM is a record holding the text of the elements the scripts touch. *)

From Stdlib Require Import ZArith NArith QArith Qround Qabs Lia Lqa Bool.
From Stdlib Require Import Strings.String Strings.Ascii.
From stdpp Require Import base list.

Local Open Scope Z_scope.

(** ** JavaScript strings *)

(** A string is its list of UTF-16 code units. *)
Definition jsstring := list N.

(** [lit s] is the string whose code units are the bytes of the ASCII
    literal [s]. *)
Definition lit (s : string) : jsstring :=
  List.map N_of_ascii (list_ascii_of_string s).
Arguments lit s%_string.

(** The double quote character, U+0022. *)
Definition dquote : jsstring := [34%N].

(** The degree sign, U+00B0. *)
Definition degree : jsstring := [176%N].

(** A line break followed by [n] spaces, as in the template literals. *)
Definition nl (n : nat) : jsstring := 10%N :: repeat 32%N n.

(** [s.length] *)
Definition str_length (s : jsstring) : Z := Z.of_nat (length s).

(** Truthiness of a string: every string but the empty one. *)
Definition str_truthy (s : jsstring) : bool :=
  match s with [] => false | _ => true end.

(** [s.startsWith(q)] *)
Fixpoint startsWith (s q : jsstring) {struct q} : bool :=
  match q, s with
  | [], _ => true
  | c :: q', d :: s' => (c =? d)%N && startsWith s' q'
  | _ :: _, [] => false
  end.

(** [s.indexOf(q)], counting from position [i] of the original string. *)
Fixpoint indexOf_from (s q : jsstring) (i : Z) : Z :=
  if startsWith s q then i
  else match s with
       | [] => -1
       | _ :: s' => indexOf_from s' q (i + 1)
       end.

Definition indexOf (s q : jsstring) : Z := indexOf_from s q 0.

(** [s.includes(q)] *)
Definition includes (s q : jsstring) : bool := 0 <=? indexOf s q.

(** The relative index of [String.prototype.slice]: negative positions count
    from the end, and everything is clamped to [0 .. len]. *)
Definition slice_pos (len i : Z) : Z :=
  if i <? 0 then Z.max (len + i) 0 else Z.min i len.

(** [s.slice(from, to)] *)
Definition slice (s : jsstring) (from to : Z) : jsstring :=
  let len := str_length s in
  let a := slice_pos len from in
  let b := slice_pos len to in
  if a <? b then take (Z.to_nat (b - a)) (drop (Z.to_nat a) s) else [].

(** [s.slice(from)] *)
Definition slice_from (s : jsstring) (from : Z) : jsstring :=
  slice s from (str_length s).

(** [s.substring(0, n)] for a non-negative literal [n]. *)
Definition substring0 (s : jsstring) (n : nat) : jsstring := take n s.

(** White space and line terminators, the characters [trim] strips. *)
Definition isWhiteSpace (c : N) : bool :=
  ((9 <=? c) && (c <=? 13) || (c =? 32) || (c =? 160) || (c =? 5760)
   || (8192 <=? c) && (c <=? 8202) || (c =? 8232) || (c =? 8233)
   || (c =? 8239) || (c =? 8287) || (c =? 12288) || (c =? 65279))%N.

Fixpoint trimStart (s : jsstring) : jsstring :=
  match s with
  | c :: s' => if isWhiteSpace c then trimStart s' else s
  | [] => []
  end.

Definition trimEnd (s : jsstring) : jsstring := rev (trimStart (rev s)).

(** [s.trim()] *)
Definition trim (s : jsstring) : jsstring := trimEnd (trimStart s).

(** [s.split(sep)] for a separator of one code unit; the result is never
    empty: the empty string splits into one empty piece. *)
Fixpoint splitOn (sep : N) (s : jsstring) : list jsstring :=
  match s with
  | [] => [[]]
  | c :: s' =>
      if (c =? sep)%N then [] :: splitOn sep s'
      else match splitOn sep s' with
           | piece :: pieces => (c :: piece) :: pieces
           | [] => [[c]]
           end
  end.

(** [s.toLowerCase()] on the Basic Latin and Latin-1 Supplement blocks; code
    units outside these two blocks are left as they are. *)
Definition lower_unit (c : N) : N :=
  (if (65 <=? c) && (c <=? 90) then c + 32
   else if (192 <=? c) && (c <=? 222) && negb (c =? 215) then c + 32
   else c)%N.

Definition toLowerCase (s : jsstring) : jsstring := List.map lower_unit s.

(** Canonical decomposition of one code unit of the Latin-1 Supplement: the
    base letter followed by its combining mark (U+0300 grave, U+0301 acute,
    U+0302 circumflex, U+0303 tilde, U+0308 diaeresis, U+030A ring,
    U+0327 cedilla). *)
Definition decompose_unit (c : N) : jsstring :=
  let grave := 768%N in let acute := 769%N in let circ := 770%N in
  let tilde := 771%N in let diaer := 776%N in let ring := 778%N in
  let cedil := 807%N in
  let on (base : N) (off : N) : jsstring :=
    (* the accented forms of a vowel come in the order grave, acute,
       circumflex, (tilde,) diaeresis *)
    [base; if (off =? 0) then grave else if (off =? 1) then acute
           else if (off =? 2) then circ else if (off =? 3) then tilde
           else diaer]%N in
  (if (192 <=? c) && (c <=? 196) then on 65 (c - 192)
   else if c =? 197 then [65; ring]
   else if c =? 199 then [67; cedil]
   else if (200 <=? c) && (c <=? 202) then on 69 (c - 200)
   else if c =? 203 then [69; diaer]
   else if (204 <=? c) && (c <=? 206) then on 73 (c - 204)
   else if c =? 207 then [73; diaer]
   else if c =? 209 then [78; tilde]
   else if (210 <=? c) && (c <=? 214) then on 79 (c - 210)
   else if (217 <=? c) && (c <=? 219) then on 85 (c - 217)
   else if c =? 220 then [85; diaer]
   else if c =? 221 then [89; acute]
   else if (224 <=? c) && (c <=? 228) then on 97 (c - 224)
   else if c =? 229 then [97; ring]
   else if c =? 231 then [99; cedil]
   else if (232 <=? c) && (c <=? 234) then on 101 (c - 232)
   else if c =? 235 then [101; diaer]
   else if (236 <=? c) && (c <=? 238) then on 105 (c - 236)
   else if c =? 239 then [105; diaer]
   else if c =? 241 then [110; tilde]
   else if (242 <=? c) && (c <=? 246) then on 111 (c - 242)
   else if (249 <=? c) && (c <=? 251) then on 117 (c - 249)
   else if c =? 252 then [117; diaer]
   else if c =? 253 then [121; acute]
   else if c =? 255 then [121; diaer]
   else [c])%N.

(** [s.normalize('NFD')] on the same two blocks. *)
Definition normalizeNFD (s : jsstring) : jsstring :=
  List.flat_map decompose_unit s.

(** [s.replace(/[lo-hi]/g, '')]: every code unit of the class is removed. *)
Definition removeRange (lo hi : N) (s : jsstring) : jsstring :=
  List.filter (fun c => negb ((lo <=? c) && (c <=? hi))%N) s.

(** Decimal digits of an integer, as in template interpolation. *)
Fixpoint digits_fuel (fuel : nat) (n : N) (acc : jsstring) : jsstring :=
  match fuel with
  | O => acc
  | S fuel' =>
      let acc' := (48 + n mod 10)%N :: acc in
      if (n <? 10)%N then acc' else digits_fuel fuel' (n / 10)%N acc'
  end.

Definition N_toString (n : N) : jsstring :=
  digits_fuel (S (N.to_nat (N.log2 n))) n [].

Definition Z_toString (z : Z) : jsstring :=
  if z <? 0 then 45%N :: N_toString (Z.to_N (- z)) else N_toString (Z.to_N z).

(** ** JavaScript numbers *)

(** A number is NaN, an infinity or a finite value, the finite values being
    exact rationals. *)
Inductive JSNumber : Type :=
| NaN
| Inf (negative : bool)
| Fin (q : Q).

Definition isNaN (x : JSNumber) : bool :=
  match x with NaN => true | _ => false end.

Definition isFiniteNumber (x : JSNumber) : bool :=
  match x with Fin _ => true | _ => false end.

Definition Qzero (q : Q) : bool := (Qnum q =? 0)%Z.
Definition Qneg (q : Q) : bool := (Qnum q <? 0)%Z.

(** [a * b] *)
Definition num_mul (a b : JSNumber) : JSNumber :=
  match a, b with
  | NaN, _ | _, NaN => NaN
  | Inf s, Inf t => Inf (xorb s t)
  | Inf s, Fin q | Fin q, Inf s => if Qzero q then NaN else Inf (xorb s (Qneg q))
  | Fin p, Fin q => Fin (Qred (p * q))
  end.

(** [a / b] *)
Definition num_div (a b : JSNumber) : JSNumber :=
  match a, b with
  | NaN, _ | _, NaN => NaN
  | Inf _, Inf _ => NaN
  | Inf s, Fin q => Inf (xorb s (Qneg q))
  | Fin _, Inf _ => Fin 0
  | Fin p, Fin q =>
      if Qzero q then (if Qzero p then NaN else Inf (Qneg p))
      else Fin (Qred (p / q))
  end.

(** [a + b] *)
Definition num_add (a b : JSNumber) : JSNumber :=
  match a, b with
  | NaN, _ | _, NaN => NaN
  | Inf s, Inf t => if eqb s t then Inf s else NaN
  | Inf s, Fin _ | Fin _, Inf s => Inf s
  | Fin p, Fin q => Fin (Qred (p + q))
  end.

(** Rounding toward zero. *)
Definition Qtrunc (q : Q) : Z := if Qneg q then Qceiling q else Qfloor q.

(** [a % b]: the remainder takes the sign of the dividend. *)
Definition num_rem (a b : JSNumber) : JSNumber :=
  match a, b with
  | NaN, _ | _, NaN | Inf _, _ => NaN
  | Fin p, Inf _ => Fin p
  | Fin p, Fin q =>
      if Qzero q then NaN
      else Fin (Qred (p - q * inject_Z (Qtrunc (p / q))))
  end.

(** [Math.round(x)]: the nearest integer, ties toward positive infinity. *)
Definition Math_round (x : JSNumber) : JSNumber :=
  match x with
  | Fin q => Fin (inject_Z (Qfloor (q + (1 # 2))))
  | _ => x
  end.

(** [arr[x]] for an array literal: an element when [x] is one of its
    indices, [None] (the value [undefined]) otherwise. *)
Definition array_get {A : Type} (arr : list A) (x : JSNumber) : option A :=
  match x with
  | Fin q =>
      let q' := Qred q in
      if ((Zpos (Qden q') =? 1) && (0 <=? Qnum q'))%Z
      then arr !! Z.to_nat (Qnum q')
      else None
  | _ => None
  end.

(** Digits after the decimal point of a fraction [0 <= r < 1]. *)
Fixpoint fraction_digits (fuel : nat) (r : Q) : jsstring :=
  match fuel with
  | O => []
  | S fuel' =>
      if Qzero r then []
      else let r10 := Qred (r * 10) in
           let d := Qfloor r10 in
           (48 + Z.to_N d)%N :: fraction_digits fuel' (Qred (r10 - inject_Z d))
  end.

(** Conversion of a number to a string. NaN, the infinities and the integers
    print as in JavaScript (the integers in full: the exponent notation used
    from 10^21 on is not modelled); other values print their decimal
    expansion, cut after twenty digits (no call in the scripts reaches that
    case: they only interpolate results of [Math.round]). *)
Definition Number_toString (x : JSNumber) : jsstring :=
  match x with
  | NaN => lit "NaN"
  | Inf false => lit "Infinity"
  | Inf true => lit "-Infinity"
  | Fin q =>
      let q' := Qred q in
      if (Zpos (Qden q') =? 1)%Z then Z_toString (Qnum q')
      else
        let a := Qabs q' in
        let i := Qfloor a in
        (if Qneg q' then lit "-" else []) ++ Z_toString i ++ lit "."
          ++ fraction_digits 20 (Qred (a - inject_Z i))
  end.

(** *** [parseFloat] *)

Definition isDigit (c : N) : bool := ((48 <=? c) && (c <=? 57))%N.

(** The longest prefix of decimal digits, and what follows it. *)
Fixpoint takeDigits (s : jsstring) : jsstring * jsstring :=
  match s with
  | c :: s' =>
      if isDigit c then let '(ds, rest) := takeDigits s' in (c :: ds, rest)
      else ([], s)
  | [] => ([], [])
  end.

Definition digitsValue (ds : jsstring) : Z :=
  fold_left (fun acc d => 10 * acc + (Z.of_N d - 48)) ds 0.

(** An optional sign: [true] for a minus. *)
Definition parseSign (s : jsstring) : bool * jsstring :=
  match s with
  | 45%N :: s' => (true, s')
  | 43%N :: s' => (false, s')
  | _ => (false, s)
  end.

(** An optional exponent part [e[+-]digits]; an incomplete one is ignored. *)
Definition parseExponent (s : jsstring) : Z :=
  match s with
  | c :: s' =>
      if ((c =? 101) || (c =? 69))%N then
        let '(neg, s'') := parseSign s' in
        let '(ds, _) := takeDigits s'' in
        match ds with
        | [] => 0
        | _ => if neg then - digitsValue ds else digitsValue ds
        end
      else 0
  | [] => 0
  end.

(** [parseFloat(s)]: leading white space is skipped, the longest prefix that
    is a decimal literal (or a signed [Infinity]) is read, and NaN is
    returned when there is none. *)
Definition parseFloat (input : jsstring) : JSNumber :=
  let '(neg, s1) := parseSign (trimStart input) in
  if startsWith s1 (lit "Infinity") then Inf neg
  else
    let '(ip, s2) := takeDigits s1 in
    let '(fp, s3) :=
      match s2 with
      | 46%N :: s2' => takeDigits s2'
      | _ => ([], s2)
      end in
    match ip ++ fp with
    | [] => NaN
    | ds =>
        let e := parseExponent s3 - Z.of_nat (length fp) in
        let q := Qred (inject_Z (digitsValue ds) * Qpower (inject_Z 10) e) in
        Fin (if neg then Qred (- q) else q)
    end.

(** ** Values that may be missing *)

(** A property of a parsed JSON object, or an array element: missing
    ([undefined]), [null], or a value of the type the API declares. *)
Inductive Opt (A : Type) : Type :=
| undefined
| null
| Val (a : A).
Arguments undefined {A}.
Arguments null {A}.
Arguments Val {A} a.

(** [ToBoolean], as used by [if (x)], [x && y], [x ? a : b] and [!x]. *)
Class Truthy (A : Type) : Type := truthy : A -> bool.

#[export] Instance truthy_string : Truthy jsstring := str_truthy.
#[export] Instance truthy_Q : Truthy Q := fun q => negb (Qzero q).
#[export] Instance truthy_Opt {A : Type} `{Truthy A} : Truthy (Opt A) :=
  fun o => match o with Val a => truthy a | _ => false end.

(** [ToString], as used by template literals and by [+] on a string. *)
Class ToStr (A : Type) : Type := toStr : A -> jsstring.

#[export] Instance toStr_string : ToStr jsstring := fun s => s.
#[export] Instance toStr_Z : ToStr Z := Z_toString.
#[export] Instance toStr_number : ToStr JSNumber := Number_toString.
#[export] Instance toStr_Opt {A : Type} `{ToStr A} : ToStr (Opt A) :=
  fun o =>
    match o with
    | undefined => lit "undefined"
    | null => lit "null"
    | Val a => toStr a
    end.

(** [ToNumber] of a numeric property: [undefined] is NaN and [null] is 0. *)
Definition ToNumber (v : Opt Q) : JSNumber :=
  match v with
  | undefined => NaN
  | null => Fin 0
  | Val q => Fin q
  end.

(** A property that is missing or [null]. *)
Definition missing {A : Type} (o : Opt A) : Prop := o = undefined \/ o = null.

(** [x.p] on a value that may be [undefined] or [null]: a TypeError, written
    [None], unless the object is there. *)
Definition deref {A : Type} (o : Opt A) : option A :=
  match o with Val a => Some a | _ => None end.

(** [class="..."] inside a template literal. *)
Definition classAttr (cls : string) : jsstring :=
  lit " class=" ++ dquote ++ lit cls ++ dquote.
Arguments classAttr cls%_string.

(** ** [src/elements/scripts/location-search.js] *)

Module LocationSearch.

(** *** Data *)

(** One entry of [this.locations]. *)
Record Location : Type := {
  zip : jsstring;
  lat : JSNumber;
  lng : JSNumber;
  city : jsstring;
  state : jsstring;
  displayText : jsstring
}.

#[export] Instance truthy_Location : Truthy Location := fun _ => true.

(** The fields of the [LocationSearch] object, with the parts of the search
    box and of the suggestions dropdown the methods read and write. The
    constructor's [setupUI] is taken to have found the search input. *)
Record Widget : Type := {
  locations : list Location;
  currentSuggestions : list Location;
  selectedIndex : Z;
  searchValue : jsstring;           (* this.searchInput.value *)
  suggestionsHidden : bool;         (* the container has class 'hidden' *)
  suggestionItems : list jsstring   (* textContent of the container's items *)
}.

(** The state the constructor leaves. *)
Definition initialWidget : Widget :=
  {| locations := []; currentSuggestions := []; selectedIndex := -1;
     searchValue := []; suggestionsHidden := true; suggestionItems := [] |}.

(** The responses of the weather API, typed by the API's contract; every
    property the script reads may be missing or [null]. *)
Record Quantity : Type := { value : Opt Q }.

Record Observation : Type := {
  temperature : Opt Quantity;
  textDescription : Opt jsstring;
  relativeHumidity : Opt Quantity;
  windSpeed : Opt Quantity;
  windDirection : Opt Quantity
}.

Record CurrentData : Type := { current_properties : Opt Observation }.

Record Alert : Type := { event : Opt jsstring; headline : Opt jsstring }.

Record AlertFeature : Type := { alert_properties : Opt Alert }.

Record AlertsData : Type := { features : Opt (list AlertFeature) }.

Record Period : Type := {
  name : Opt jsstring;
  shortForecast : Opt jsstring;
  period_temperature : Opt Z
}.

Record ForecastProperties : Type := { periods : Opt (list Period) }.

Record ForecastData : Type := { forecast_properties : Opt ForecastProperties }.

Record PointProperties : Type := {
  observationStations : Opt jsstring;
  point_forecast : Opt jsstring
}.

Record PointData : Type := { point_properties : Opt PointProperties }.

Record StationProperties : Type := { station_id : Opt jsstring }.

Record Station : Type := { station_properties : Opt StationProperties }.

Record Stations : Type := { station_features : Opt (list Station) }.

(** The object literal handed to [updateWeatherUI]. *)
Record WeatherData : Type := {
  current : Opt CurrentData;
  forecast : Opt ForecastData;
  alerts : Opt AlertsData
}.

#[export] Instance truthy_Quantity : Truthy Quantity := fun _ => true.
#[export] Instance truthy_Observation : Truthy Observation := fun _ => true.
#[export] Instance truthy_CurrentData : Truthy CurrentData := fun _ => true.
#[export] Instance truthy_AlertsData : Truthy AlertsData := fun _ => true.
#[export] Instance truthy_ForecastProperties : Truthy ForecastProperties :=
  fun _ => true.
#[export] Instance truthy_ForecastData : Truthy ForecastData := fun _ => true.

(** A measurement without a reading: the property is missing or [null], or
    its [value] is. *)
Definition noReading (m : Opt Quantity) : Prop :=
  missing m \/ exists t : Quantity, m = Val t /\ missing (value t).

(** The elements of the weather page the script writes to, each with its
    text ([textContent] or [innerHTML]), [None] when the selector finds
    nothing. The selectors are taken to find six different elements, none
    inside another. *)
Record Page : Type := {
  h2 : option jsstring;                (* document.querySelector('h2') *)
  tempElement : option jsstring;       (* '.text-7xl' *)
  conditionElement : option jsstring;  (* '.text-xl.text-gray-600' *)
  detailsContainer : option jsstring;  (* '.space-y-2.text-gray-500' *)
  alertContent : option jsstring;
    (* '.flex.items-center.gap-4' inside the element after the h2's parent *)
  forecastContainer : option jsstring  (* '.divide-y.divide-gray-200' *)
}.

Definition set_h2 (v : jsstring) (p : Page) : Page :=
  {| h2 := Some v; tempElement := tempElement p;
     conditionElement := conditionElement p;
     detailsContainer := detailsContainer p; alertContent := alertContent p;
     forecastContainer := forecastContainer p |}.

Definition set_tempElement (v : jsstring) (p : Page) : Page :=
  {| h2 := h2 p; tempElement := Some v;
     conditionElement := conditionElement p;
     detailsContainer := detailsContainer p; alertContent := alertContent p;
     forecastContainer := forecastContainer p |}.

Definition set_conditionElement (v : jsstring) (p : Page) : Page :=
  {| h2 := h2 p; tempElement := tempElement p; conditionElement := Some v;
     detailsContainer := detailsContainer p; alertContent := alertContent p;
     forecastContainer := forecastContainer p |}.

Definition set_detailsContainer (v : jsstring) (p : Page) : Page :=
  {| h2 := h2 p; tempElement := tempElement p;
     conditionElement := conditionElement p; detailsContainer := Some v;
     alertContent := alertContent p;
     forecastContainer := forecastContainer p |}.

Definition set_alertContent (v : jsstring) (p : Page) : Page :=
  {| h2 := h2 p; tempElement := tempElement p;
     conditionElement := conditionElement p;
     detailsContainer := detailsContainer p; alertContent := Some v;
     forecastContainer := forecastContainer p |}.

Definition set_forecastContainer (v : jsstring) (p : Page) : Page :=
  {| h2 := h2 p; tempElement := tempElement p;
     conditionElement := conditionElement p;
     detailsContainer := detailsContainer p; alertContent := alertContent p;
     forecastContainer := Some v |}.

(** *** Utility functions *)

Definition celsiusToFahrenheit (celsius : JSNumber) : JSNumber :=
  num_add (num_div (num_mul celsius (Fin 9)) (Fin 5)) (Fin 32).

Definition mpsToMph (mps : JSNumber) : JSNumber :=
  num_mul mps (Fin (2237 # 1000)).

Definition directions : list jsstring :=
  [lit "N"; lit "NNE"; lit "NE"; lit "ENE"; lit "E"; lit "ESE"; lit "SE";
   lit "SSE"; lit "S"; lit "SSW"; lit "SW"; lit "WSW"; lit "W"; lit "WNW";
   lit "NW"; lit "NNW"].

(** The result is [None] ([undefined]) when the index is not one of the
    sixteen. *)
Definition degreesToDirection (degrees : JSNumber) : option jsstring :=
  array_get directions
    (num_rem (Math_round (num_div degrees (Fin (45 # 2)))) (Fin 16)).

(** [name.includes] is a TypeError, written [None], on a missing name. *)
Definition formatDayName (name : Opt jsstring) : option jsstring :=
  n ← deref name;
  Some (if includes n (lit "This") || includes n (lit "Tonight")
        then lit "Today" else substring0 n 3).

Definition getWeatherIcon (condition : Opt jsstring) : option jsstring :=
  c ← deref condition;
  let conditionLower := toLowerCase c in
  Some (if includes conditionLower (lit "sunny")
           || includes conditionLower (lit "clear") then lit "wb_sunny"
        else if includes conditionLower (lit "cloudy")
                || includes conditionLower (lit "overcast") then lit "cloud"
        else if includes conditionLower (lit "rain")
                || includes conditionLower (lit "shower") then lit "rainy"
        else if includes conditionLower (lit "snow") then lit "ac_unit"
        else if includes conditionLower (lit "storm")
                || includes conditionLower (lit "thunder")
             then lit "thunderstorm"
        else lit "wb_cloudy").

(** *** Loading the locations *)

(** An argument converted to a string: a missing array element is
    [undefined]. *)
Definition argString (v : option jsstring) : jsstring :=
  match v with Some s => s | None => lit "undefined" end.

(** The callback of [lines.slice(1).map]: one record per line. The result is
    [None] when the callback throws, which it does at [values[3].trim()]
    when the line has fewer than four columns. *)
Definition rowToLocation (line : jsstring) : option Location :=
  let values := splitOn 44 line in
  v0 ← values !! 0%nat;
  v3 ← values !! 3%nat;
  let st := match values !! 4%nat with
            | Some v4 => if truthy v4 then trim v4 else lit "Unknown"
            | None => lit "Unknown"
            end in
  Some {| zip := trim v0;
          lat := parseFloat (argString (values !! 1%nat));
          lng := parseFloat (argString (values !! 2%nat));
          city := trim v3;
          state := st;
          displayText := trim v3 ++ lit ", " ++ st ++ lit " " ++ trim v0 |}.

(** The predicate of the [filter] that follows the [map]. *)
Definition validCoordinates (location : Location) : bool :=
  negb (isNaN (lat location)) && negb (isNaN (lng location)).

(** The lines after the header line. *)
Definition dataLines (csvText : jsstring) : list jsstring :=
  drop 1 (splitOn 10 (trim csvText)).

(** The body of the [try] block from the CSV text on; [None] when it
    throws. *)
Definition parseLocations (csvText : jsstring) : option (list Location) :=
  rows ← mapM rowToLocation (dataLines csvText);
  Some (List.filter validCoordinates rows).

Definition set_locations (l : list Location) (w : Widget) : Widget :=
  {| locations := l; currentSuggestions := currentSuggestions w;
     selectedIndex := selectedIndex w; searchValue := searchValue w;
     suggestionsHidden := suggestionsHidden w;
     suggestionItems := suggestionItems w |}.

(** [loadLocations]: [csv] is the text of the fetched file, [None] when the
    fetch or the reading of its body fails. Whatever is thrown inside the
    [try] block is caught and logged, and [this.locations] keeps the value
    it had. *)
Definition loadLocations (w : Widget) (csv : option jsstring) : Widget :=
  match csv ≫= parseLocations with
  | Some l => set_locations l w
  | None => w
  end.

(** *** Suggestions *)

Definition hideSuggestions (w : Widget) : Widget :=
  {| locations := locations w; currentSuggestions := []; selectedIndex := -1;
     searchValue := searchValue w; suggestionsHidden := true;
     suggestionItems := suggestionItems w |}.

(** The predicate of the [filter] in [showSuggestions]. *)
Definition matchesQuery (query : jsstring) (location : Location) : bool :=
  let queryLower := toLowerCase query in
  if negb (truthy location) || negb (truthy (city location))
     || negb (truthy (state location)) || negb (truthy (zip location))
  then false
  else includes (toLowerCase (city location)) queryLower
       || includes (toLowerCase (state location)) queryLower
       || includes (zip location) query.

(** [renderSuggestions]: one item per suggestion, showing its
    [displayText]. *)
Definition renderSuggestions (w : Widget) : Widget :=
  {| locations := locations w; currentSuggestions := currentSuggestions w;
     selectedIndex := selectedIndex w; searchValue := searchValue w;
     suggestionsHidden := suggestionsHidden w;
     suggestionItems := List.map displayText (currentSuggestions w) |}.

Definition showSuggestions (w : Widget) (query : jsstring) : Widget :=
  let w1 :=
    {| locations := locations w;
       currentSuggestions := take 10 (List.filter (matchesQuery query) (locations w));
       selectedIndex := selectedIndex w; searchValue := searchValue w;
       suggestionsHidden := suggestionsHidden w;
       suggestionItems := suggestionItems w |} in
  if (length (currentSuggestions w1) =? 0)%nat then hideSuggestions w1
  else
    let w2 := renderSuggestions w1 in
    {| locations := locations w2; currentSuggestions := currentSuggestions w2;
       selectedIndex := selectedIndex w2; searchValue := searchValue w2;
       suggestionsHidden := false; suggestionItems := suggestionItems w2 |}.

Definition set_searchValue (v : jsstring) (w : Widget) : Widget :=
  {| locations := locations w; currentSuggestions := currentSuggestions w;
     selectedIndex := selectedIndex w; searchValue := v;
     suggestionsHidden := suggestionsHidden w;
     suggestionItems := suggestionItems w |}.

(** [handleInput]: the event carries the text of the search box, which the
    browser has already stored in [searchInput.value]. *)
Definition handleInput (w : Widget) (text : jsstring) : Widget :=
  let w := set_searchValue text w in
  let query := trim text in
  if str_length query <? 2 then hideSuggestions w
  else showSuggestions w query.

Definition handleFocus (w : Widget) : Widget :=
  if 2 <=? str_length (trim (searchValue w))
  then showSuggestions w (trim (searchValue w))
  else w.

(** The sequence returned for a text typed in the search box: what the
    dropdown holds after the input event. *)
Definition Query (w : Widget) (text : jsstring) : list Location :=
  currentSuggestions (handleInput w text).

(** *** Rendering the weather *)

Definition loadingMessage : jsstring := lit "Loading weather data...".
Definition errorMessage : jsstring :=
  lit "Error loading weather data. Please try again.".

(** The text of the temperature element while there is a message. *)
Definition noTemperature : jsstring := lit "--" ++ degree ++ lit "F".

Definition alertTemplate (a : Alert) : jsstring :=
  nl 16 ++ lit "<span" ++ classAttr "material-symbols-outlined text-red-500 text-3xl"
    ++ lit ">warning</span>"
  ++ nl 16 ++ lit "<div>"
  ++ nl 20 ++ lit "<p" ++ classAttr "font-semibold text-gray-800" ++ lit ">"
    ++ toStr (event a) ++ lit "</p>"
  ++ nl 20 ++ lit "<p" ++ classAttr "text-gray-500 text-sm" ++ lit ">"
    ++ toStr (headline a) ++ lit "</p>"
  ++ nl 16 ++ lit "</div>"
  ++ nl 12.

Definition noAlertsTemplate : jsstring :=
  nl 16 ++ lit "<span"
    ++ classAttr "material-symbols-outlined text-green-500 text-3xl"
    ++ lit ">check_circle</span>"
  ++ nl 16 ++ lit "<div>"
  ++ nl 20 ++ lit "<p" ++ classAttr "font-semibold text-gray-800"
    ++ lit ">No active weather alerts</p>"
  ++ nl 20 ++ lit "<p" ++ classAttr "text-gray-500 text-sm"
    ++ lit ">All clear for now. Stay tuned for updates.</p>"
  ++ nl 16 ++ lit "</div>"
  ++ nl 12.

(** [updateAlertsUI]; [None] when it throws: on a page without [h2], and
    when the first feature has no [properties]. *)
Definition updateAlertsUI (p : Page) (alertsData : Opt AlertsData)
  : option Page :=
  _ ← h2 p;
  match alertContent p with
  | None => Some p
  | Some _ =>
      (* alertsData && alertsData.features && alertsData.features.length > 0 *)
      match alertsData with
      | Val data =>
          match features data with
          | Val (first :: _) =>
              alert ← deref (alert_properties first);
              Some (set_alertContent (alertTemplate alert) p)
          | _ => Some (set_alertContent noAlertsTemplate p)
          end
      | _ => Some (set_alertContent noAlertsTemplate p)
      end
  end.

(** The template of one forecast row; [None] when [formatDayName] or
    [getWeatherIcon] throws. *)
Definition periodTemplate (period : Period) : option jsstring :=
  day ← formatDayName (name period);
  icon ← getWeatherIcon (shortForecast period);
  Some (nl 12 ++ lit "<div" ++ classAttr "grid grid-cols-4 items-center py-3"
          ++ lit ">"
        ++ nl 16 ++ lit "<p" ++ classAttr "font-medium text-gray-700"
          ++ lit ">" ++ day ++ lit "</p>"
        ++ nl 16 ++ lit "<div" ++ classAttr "flex items-center gap-2"
          ++ lit ">"
        ++ nl 20 ++ lit "<span"
          ++ classAttr "material-symbols-outlined text-yellow-500" ++ lit ">"
          ++ icon ++ lit "</span>"
        ++ nl 20 ++ lit "<p" ++ classAttr "text-gray-600" ++ lit ">"
          ++ toStr (shortForecast period) ++ lit "</p>"
        ++ nl 16 ++ lit "</div>"
        ++ nl 16 ++ lit "<p" ++ classAttr "text-gray-600 text-center"
          ++ lit ">" ++ toStr (period_temperature period) ++ degree
          ++ lit "</p>"
        ++ nl 16 ++ lit "<p" ++ classAttr "text-gray-600 text-right"
          ++ lit ">--</p>"
        ++ nl 12 ++ lit "</div>"
        ++ nl 8).

(** [updateForecastUI]; [None] when a row throws, the container being then
    left as it was. *)
Definition updateForecastUI (p : Page) (forecastData : Opt ForecastData)
  : option Page :=
  (* !forecastData || !forecastData.properties
       || !forecastData.properties.periods *)
  match forecastData with
  | Val data =>
      match forecast_properties data with
      | Val props =>
          match periods props with
          | Val ps =>
              match forecastContainer p with
              | None => Some p
              | Some _ =>
                  rows ← mapM periodTemplate (take 7 ps);
                  Some (set_forecastContainer (concat rows) p)
              end
          | _ => Some p
          end
      | _ => Some p
      end
  | _ => Some p
  end.

(** The header written by [updateWeatherUI]. *)
Definition headerText (location : Location) : jsstring :=
  city location ++ lit ", " ++ state location ++ lit " - Current Conditions".

Definition detailsTemplate (humidity windSpeed : jsstring)
  (windDirection : jsstring) : jsstring :=
  nl 24 ++ lit "<p>Humidity: " ++ humidity ++ lit "</p>"
  ++ nl 24 ++ lit "<p>Wind: " ++ windSpeed ++ lit " " ++ windDirection
    ++ lit "</p>"
  ++ nl 20.

(** The three texts of the details paragraph. *)
Definition humidityText (cur : Observation) : jsstring :=
  match relativeHumidity cur with
  | Val h => toStr (Math_round (ToNumber (value h))) ++ lit "%"
  | _ => lit "N/A"
  end.

Definition windSpeedText (cur : Observation) : jsstring :=
  match windSpeed cur with
  | Val w => toStr (Math_round (mpsToMph (ToNumber (value w)))) ++ lit " mph"
  | _ => lit "N/A"
  end.

(** A direction that [degreesToDirection] leaves [undefined] is
    interpolated as the word. *)
Definition windDirectionText (cur : Observation) : jsstring :=
  match windDirection cur with
  | Val d =>
      match degreesToDirection (ToNumber (value d)) with
      | Some label => label
      | None => lit "undefined"
      end
  | _ => []
  end.

(** The text of the temperature element for a reading. *)
Definition temperatureText (t : Quantity) : jsstring :=
  let tempF := celsiusToFahrenheit (ToNumber (value t)) in
  toStr (Math_round tempF) ++ degree ++ lit "F".

(** The three statements of the block that updates the current conditions:
    the temperature, the conditions, the additional details. Nothing in
    them throws. *)
Definition updateTemperature (p : Page) (cur : Observation) : Page :=
  (* tempElement && current.temperature && current.temperature.value *)
  match tempElement p, temperature cur with
  | Some _, Val t => if truthy (value t) then set_tempElement (temperatureText t) p
                     else p
  | _, _ => p
  end.

Definition updateCondition (p : Page) (cur : Observation) : Page :=
  (* conditionElement && current.textDescription *)
  match conditionElement p, textDescription cur with
  | Some _, Val d => if truthy d then set_conditionElement d p else p
  | _, _ => p
  end.

Definition updateDetails (p : Page) (cur : Observation) : Page :=
  (* detailsContainer && current *)
  match detailsContainer p with
  | Some _ =>
      set_detailsContainer
        (detailsTemplate (humidityText cur) (windSpeedText cur)
           (windDirectionText cur)) p
  | None => p
  end.

Definition updateCurrent (p : Page) (cur : Observation) : Page :=
  updateDetails (updateCondition (updateTemperature p cur) cur) cur.

(** The first step of [updateWeatherUI]: the name of the location goes in
    the header, if the header still reads as a current-conditions one. *)
Definition updateHeader (p : Page) (location : Location) : Page :=
  match h2 p with
  | Some text =>
      if includes text (lit "Current Conditions")
      then set_h2 (headerText location) p else p
  | None => p
  end.

(** The branch of [updateWeatherUI] taken when there is a message. *)
Definition showMessage (p : Page) (message : jsstring) : Page :=
  let p := match tempElement p with
           | Some _ => set_tempElement noTemperature p
           | None => p
           end in
  match conditionElement p with
  | Some _ => set_conditionElement message p
  | None => p
  end.

(** The first statement of the [try] block: the current conditions are
    updated [if (weatherData.current && weatherData.current.properties)]. *)
Definition updateCurrentConditions (p : Page) (current : Opt CurrentData)
  : Page :=
  match current with
  | Val c =>
      match current_properties c with
      | Val cur => updateCurrent p cur
      | _ => p
      end
  | _ => p
  end.

(** The [try] block of [updateWeatherUI]: whatever it throws is caught and
    logged, and what was written before stays. *)
Definition showWeather (p : Page) (weatherData : WeatherData) : Page :=
  let p1 := updateCurrentConditions p (current weatherData) in
  match updateAlertsUI p1 (alerts weatherData) with
  | None => p1
  | Some p2 =>
      match updateForecastUI p2 (forecast weatherData) with
      | None => p2
      | Some p3 => p3
      end
  end.

(** [updateWeatherUI(weatherData, message, location)]: [weatherData] and
    [message] are [null] ([None]) or given. *)
Definition updateWeatherUI (p : Page) (weatherData : option WeatherData)
  (message : option jsstring) (location : Location) : Page :=
  let p := updateHeader p location in
  match message, weatherData with
  | Some m, _ =>
      if truthy m then showMessage p m
      else match weatherData with
           | Some data => showWeather p data
           | None => p
           end
  | None, Some data => showWeather p data
  | None, None => p
  end.

(** *** Fetching the weather *)

(** What [fetch] gives: a rejection, or a response with its [ok] flag and
    what [json()] would give for its body: [None] when the body is not JSON,
    else the parsed value, which may be [null]. *)
Inductive Fetched (A : Type) : Type :=
| NetworkError
| Response (ok : bool) (body : option (Opt A)).
Arguments NetworkError {A}.
Arguments Response {A} ok body.

(** The weather API as the script sees it: one answer per request. The
    requests built from coordinates are keyed by the coordinates, the others
    by the URL string the script passes to [fetch]. *)
Record Network : Type := {
  fetchPoint : JSNumber -> JSNumber -> Fetched PointData;
  fetchStations : jsstring -> Fetched Stations;
  fetchObservation : jsstring -> Fetched CurrentData;
  fetchForecast : jsstring -> Fetched ForecastData;
  fetchAlerts : JSNumber -> JSNumber -> Fetched AlertsData
}.

(** An awaited promise: [None] when it rejects. *)
Definition await_fetch {A : Type} (r : Fetched A) : option (bool * option (Opt A)) :=
  match r with
  | NetworkError => None
  | Response ok body => Some (ok, body)
  end.

(** [response.json()] *)
Definition json {A : Type} (response : bool * option (Opt A)) : option (Opt A) :=
  snd response.

(** [Promise.all] of three promises: it rejects as soon as one does. *)
Definition Promise_all3 {A B C : Type} (a : option A) (b : option B)
  (c : option C) : option (A * B * C) :=
  x ← a; y ← b; z ← c; Some (x, y, z).

(** Stage 1: the point metadata. [None] when the request fails, the status
    is not ok, the body is not JSON, or it has no [properties]. *)
Definition fetchPointProperties (net : Network) (lat lng : JSNumber)
  : option PointProperties :=
  pointResponse ← await_fetch (fetchPoint net lat lng);
  if negb (fst pointResponse) then None (* throw new Error(...) *)
  else
    pointData ← json pointResponse;
    pd ← deref pointData;
    deref (point_properties pd).

(** The first promise of stage 2: the list of stations, then the latest
    observation of the first one. *)
Definition observationRequest (net : Network) (props : PointProperties)
  : option (bool * option (Opt CurrentData)) :=
  r ← await_fetch (fetchStations net (toStr (observationStations props)));
  stations ← json r;
  ss ← deref stations;
  fs ← deref (station_features ss);
  first ← fs !! 0%nat;
  sp ← deref (station_properties first);
  await_fetch
    (fetchObservation net (toStr (station_id sp) ++ lit "/observations/latest")).

Definition forecastRequest (net : Network) (props : PointProperties)
  : option (bool * option (Opt ForecastData)) :=
  await_fetch (fetchForecast net (toStr (point_forecast props))).

Definition alertsRequest (net : Network) (lat lng : JSNumber)
  : option (bool * option (Opt AlertsData)) :=
  await_fetch (fetchAlerts net lat lng).

(** Stage 2 after the point metadata: the two [Promise.all]. *)
Definition fetchBranches (net : Network) (lat lng : JSNumber)
  (props : PointProperties) : option WeatherData :=
  '(currentResponse, forecastResponse, alertsResponse) ←
    Promise_all3 (observationRequest net props) (forecastRequest net props)
      (alertsRequest net lat lng);
  '(currentData, forecastData, alertsData) ←
    Promise_all3 (json currentResponse) (json forecastResponse)
      (json alertsResponse);
  Some {| current := currentData; forecast := forecastData;
          alerts := alertsData |}.

(** Everything [fetchWeatherData] awaits: [None] when anything in the [try]
    block throws or rejects. *)
Definition gather (net : Network) (lat lng : JSNumber) : option WeatherData :=
  fetchPointProperties net lat lng ≫= fetchBranches net lat lng.

(** [fetchWeatherData] runs in two steps, with other events in between:
    [fetchStart] is the part before the first [await], [fetchSettle] what
    happens once everything awaited has settled. The page is written in
    these two steps only. *)
Definition fetchStart (p : Page) (location : Location) : Page :=
  updateWeatherUI p None (Some loadingMessage) location.

Definition fetchSettle (net : Network) (p : Page) (lat lng : JSNumber)
  (location : Location) : Page :=
  match gather net lat lng with
  | Some data => updateWeatherUI p (Some data) None location
  | None => updateWeatherUI p None (Some errorMessage) location
  end.

(** A fetch that runs without any other event in between. *)
Definition fetchWeatherData (net : Network) (p : Page) (lat lng : JSNumber)
  (location : Location) : Page :=
  fetchSettle net (fetchStart p location) lat lng location.

(** *** The session: selections and settling fetches *)

(** The widget, the page and the fetches that have started and not yet
    settled, oldest first. *)
Record Session : Type := {
  widget : Widget;
  page : Page;
  inflight : list Location
}.

(** [selectLocation] up to the first [await] of its fetch. *)
Definition selectLocation (s : Session) (location : Location) : Session :=
  {| widget := hideSuggestions
                 (set_searchValue (displayText location) (widget s));
     page := fetchStart (page s) location;
     inflight := inflight s ++ [location] |}.

(** The events of a session. *)
Inductive Event : Type :=
| Input (text : jsstring)         (* typing in the search box *)
| Select (location : Location)    (* click on a suggestion *)
| Settle (i : nat).               (* the [i]-th fetch in flight settles *)

Definition step (net : Network) (s : Session) (e : Event) : Session :=
  match e with
  | Input text =>
      {| widget := handleInput (widget s) text; page := page s;
         inflight := inflight s |}
  | Select location => selectLocation s location
  | Settle i =>
      match inflight s !! i with
      | Some location =>
          {| widget := widget s;
             page := fetchSettle net (page s) (lat location) (lng location)
                       location;
             inflight := delete i (inflight s) |}
      | None => s
      end
  end.

Definition run (net : Network) (s : Session) (events : list Event) : Session :=
  fold_left (step net) events s.

End LocationSearch.

(** ** The unnamed script, headed [// location-search.js] *)

Module Suggest.

(** One row of [results.data]: Papa Parse in header mode gives an object per
    line, keyed by the header's names, with string values; a column the line
    does not have is missing. *)
Record Row : Type := {
  row_zip : Opt jsstring;
  row_city : Opt jsstring;
  row_state_id : Opt jsstring;
  row_lat : Opt jsstring;
  row_lng : Opt jsstring
}.

(** One entry of [locations]: the row's columns with [display] and
    [search]. *)
Record Location : Type := {
  zip : jsstring;
  city : jsstring;
  state_id : jsstring;
  lat : jsstring;
  lng : jsstring;
  display : jsstring;
  search : jsstring
}.

(** The suggestions list of the page. *)
Record SuggestionsBox : Type := {
  hidden : bool;          (* the list has class 'hidden' *)
  innerHTML : jsstring
}.

(** Utility: normalize a string. The character class of the [replace] runs
    from U+0000 to U+036F. *)
Definition normalize (str : jsstring) : jsstring :=
  removeRange 0 879 (normalizeNFD (toLowerCase str)).

Definition spanOpen : jsstring :=
  lit "<span" ++ classAttr "bg-yellow-200" ++ lit ">".
Definition spanClose : jsstring := lit "</span>".

(** Utility: highlight the matched text in a suggestion. *)
Definition highlightMatch (text query : jsstring) : jsstring :=
  let nQuery := normalize query in
  let nText := normalize text in
  let idx := indexOf nText nQuery in
  if idx <? 0 then text
  else slice text 0 idx ++ spanOpen
       ++ slice text idx (idx + str_length query) ++ spanClose
       ++ slice_from text (idx + str_length query).

(** The [filter] and the [map] of the [complete] callback on one row: rows
    with a missing or empty column are dropped. *)
Definition rowToLocation (r : Row) : option Location :=
  match row_zip r, row_city r, row_state_id r, row_lat r, row_lng r with
  | Val z, Val c, Val s, Val la, Val ln =>
      if truthy z && truthy c && truthy s && truthy la && truthy ln
      then Some {| zip := z; city := c; state_id := s; lat := la; lng := ln;
                   display := c ++ lit ", " ++ s ++ lit " " ++ z;
                   search := z ++ lit " " ++ c ++ lit " " ++ s |}
      else None
  | _, _, _, _, _ => None
  end.

(** [loadLocations]: the value the [complete] callback gives [locations]. *)
Definition loadLocations (data : list Row) : list Location :=
  omap rowToLocation data.

(** The predicate of the [filter] in [showSuggestions]; [q] is the
    normalized query. *)
Definition matchesQuery (q : jsstring) (loc : Location) : bool :=
  startsWith (normalize (zip loc)) q
  || includes (normalize (city loc)) q
  || startsWith (normalize (state_id loc)) q.

(** The local [matches] of [showSuggestions]. *)
Definition matches (locations : list Location) (query : jsstring)
  : list Location :=
  take 15 (List.filter (matchesQuery (normalize query)) locations).

Definition dataAttr (name : string) (v : jsstring) : jsstring :=
  lit name ++ lit "=" ++ dquote ++ v ++ dquote.
Arguments dataAttr name%_string v.

Definition itemTemplate (query : jsstring) (loc : Location) : jsstring :=
  lit "<li" ++ classAttr "px-4 py-2 cursor-pointer hover:bg-gray-100"
  ++ nl 8 ++ dataAttr "data-zip" (zip loc) ++ lit " "
    ++ dataAttr "data-lat" (lat loc) ++ lit " "
    ++ dataAttr "data-lng" (lng loc) ++ lit " "
    ++ dataAttr "data-city" (city loc) ++ lit " "
    ++ dataAttr "data-state" (state_id loc) ++ lit ">"
  ++ nl 6 ++ highlightMatch (display loc) query
  ++ nl 4 ++ lit "</li>".

Definition cleared : SuggestionsBox := {| hidden := true; innerHTML := [] |}.

(** Show suggestions based on input. *)
Definition showSuggestions (locations : list Location) (query : jsstring)
  : SuggestionsBox :=
  if negb (truthy query) || (str_length query <? 2) then cleared
  else
    let ms := matches locations query in
    if (length ms =? 0)%nat then cleared
    else {| hidden := false;
            innerHTML := concat (List.map (itemTemplate query) ms) |}.

(** The sequence of records behind the list that [showSuggestions] leaves on
    the page: none after an early return, [matches] otherwise. The input
    listener passes the text of the search box as it is. *)
Definition Query (locations : list Location) (text : jsstring)
  : list Location :=
  if negb (truthy text) || (str_length text <? 2) then []
  else matches locations text.

End Suggest.

(** ** Keyboard navigation in [location-search.js] *)

Module Keyboard.
Import LocationSearch.

(** The keys [handleKeydown] tells apart. *)
Inductive Key : Type := ArrowDown | ArrowUp | Enter | Escape | OtherKey.

Definition set_selectedIndex (i : Z) (w : Widget) : Widget :=
  {| locations := locations w; currentSuggestions := currentSuggestions w;
     selectedIndex := i; searchValue := searchValue w;
     suggestionsHidden := suggestionsHidden w;
     suggestionItems := suggestionItems w |}.

Definition set_widget (w : Widget) (s : Session) : Session :=
  {| widget := w; page := page s; inflight := inflight s |}.

(** [updateSelection]: for each item of the dropdown, whether it carries the
    class [bg-blue-100] after the call. *)
Definition updateSelection (w : Widget) : list bool :=
  imap (fun index _ => Z.of_nat index =? selectedIndex w) (suggestionItems w).

(** [handleKeydown]. The arrows also call [updateSelection], which restyles
    the items and changes nothing else. On [Enter] the suggestion at
    [selectedIndex] is selected; when there is none at that index,
    [selectLocation] is called with [undefined] and throws at
    [location.displayText], before it has written anything. *)
Definition handleKeydown (s : Session) (key : Key) : Session :=
  let w := widget s in
  let len := Z.of_nat (length (currentSuggestions w)) in
  if len =? 0 then s
  else
    match key with
    | ArrowDown =>
        set_widget (set_selectedIndex (Z.min (selectedIndex w + 1) (len - 1)) w) s
    | ArrowUp =>
        set_widget (set_selectedIndex (Z.max (selectedIndex w - 1) (-1)) w) s
    | Enter =>
        if 0 <=? selectedIndex w then
          match currentSuggestions w !! Z.to_nat (selectedIndex w) with
          | Some location => selectLocation s location
          | None => s
          end
        else s
    | Escape => set_widget (hideSuggestions w) s
    | OtherKey => s
    end.

(** The selected index is -1 or the index of a suggestion. *)
Definition indexInRange (w : Widget) : Prop :=
  -1 <= selectedIndex w < Z.of_nat (length (currentSuggestions w)).

End Keyboard.

(** ** Selection in the unnamed script *)

Module Selection.
Import Suggest.

(** The [data-] attributes of a list item. The item is found by the selector
    [li[data-zip]], so it has a zip; the other attributes may be missing. *)
Record Dataset : Type := {
  data_zip : jsstring;
  data_lat : Opt jsstring;
  data_lng : Opt jsstring;
  data_city : Opt jsstring;
  data_state : Opt jsstring
}.

(** The object kept in [selectedLocation]. *)
Record Selected : Type := {
  lat : JSNumber;
  lng : JSNumber;
  city : Opt jsstring;
  state : Opt jsstring;
  zip : jsstring
}.

(** The variables and the elements the selection handlers use. The weather
    elements, written by the placeholder [fetchWeatherForLocation] only, are
    left out. *)
Record State : Type := {
  locations : list Location;
  selectedLocation : option Selected;
  searchValue : jsstring;      (* searchInput.value *)
  suggestionsBox : SuggestionsBox
}.

(** The text of the search box for a selection. *)
Definition selectionText (sel : Selected) : jsstring :=
  toStr (city sel) ++ lit ", " ++ toStr (state sel) ++ lit " " ++ zip sel.

(** A number read from an attribute: a missing attribute is [undefined]. *)
Definition parseAttribute (v : Opt jsstring) : JSNumber :=
  parseFloat (toStr v).

(** Handle a click on the suggestions; [li] is the list item found by
    [e.target.closest], [None] when there is none. *)
Definition onSuggestionClick (st : State) (li : option Dataset) : State :=
  match li with
  | None => st
  | Some ds =>
      let sel := {| lat := parseAttribute (data_lat ds);
                    lng := parseAttribute (data_lng ds);
                    city := data_city ds; state := data_state ds;
                    zip := data_zip ds |} in
      {| locations := locations st;
         selectedLocation := Some sel;
         searchValue := selectionText sel;
         suggestionsBox := cleared |}
  end.

(** Enforce selection from the dropdown (no free text). *)
Definition enforceSelection (st : State) : State :=
  match selectedLocation st with
  | Some sel =>
      if bool_decide (searchValue st = selectionText sel) then st
      else {| locations := locations st; selectedLocation := None;
              searchValue := searchValue st;
              suggestionsBox := suggestionsBox st |}
  | None => st
  end.

(** The events the script listens to. The blur listener also hides the list,
    100 ms later; that timer is not modelled. *)
Inductive Event : Type :=
| Typed (text : jsstring)          (* input: the new text of the box *)
| Clicked (li : option Dataset)    (* mousedown on the suggestions *)
| Blurred.

Definition step (st : State) (e : Event) : State :=
  match e with
  | Typed text =>
      {| locations := locations st; selectedLocation := selectedLocation st;
         searchValue := text;
         suggestionsBox := showSuggestions (locations st) text |}
  | Clicked li => onSuggestionClick st li
  | Blurred => enforceSelection st
  end.

Definition run (st : State) (events : list Event) : State :=
  fold_left step events st.

(** The attributes [showSuggestions] writes on the item of a location, as
    the browser gives them back when the values hold no character that
    HTML treats specially. *)
Definition datasetOf (loc : Location) : Dataset :=
  {| data_zip := Suggest.zip loc; data_lat := Val (Suggest.lat loc);
     data_lng := Val (Suggest.lng loc); data_city := Val (Suggest.city loc);
     data_state := Val (state_id loc) |}.

(** The selection, when there is one, is the one the search box shows. *)
Definition consistent (st : State) : Prop :=
  forall sel : Selected,
    selectedLocation st = Some sel -> searchValue st = selectionText sel.

End Selection.

(** ** Shapes of the responses *)

Module Shapes.
Import LocationSearch.

(** A period has the two texts its row needs. *)
Definition rowReady (period : Period) : Prop :=
  is_Some (deref (name period)) /\ is_Some (deref (shortForecast period)).

(** An alerts response without any alert: the response, or its list of
    features, is missing or null, or the list is empty. *)
Definition noAlert (alertsData : Opt AlertsData) : Prop :=
  missing alertsData
  \/ exists data : AlertsData,
       alertsData = Val data
       /\ (missing (features data) \/ features data = Val []).

(** The answer to a request with its status taken for a success. *)
Definition asOk {A : Type} (r : Fetched A) : Fetched A :=
  match r with
  | NetworkError => NetworkError
  | Response _ body => Response true body
  end.

(** The network whose answers to the requests of stage 2 all have a success
    status, with the bodies they had. *)
Definition stage2Ok (net : Network) : Network :=
  {| fetchPoint := fetchPoint net;
     fetchStations := fun url => asOk (fetchStations net url);
     fetchObservation := fun url => asOk (fetchObservation net url);
     fetchForecast := fun url => asOk (fetchForecast net url);
     fetchAlerts := fun lat lng => asOk (fetchAlerts net lat lng) |}.

(** The header still reads as a current-conditions one. *)
Definition headerOpen (p : Page) : Prop :=
  exists text : jsstring,
    h2 p = Some text /\ includes text (lit "Current Conditions") = true.

(** The six icons of the forecast. *)
Definition weatherIcons : list jsstring :=
  [lit "wb_sunny"; lit "cloud"; lit "rainy"; lit "ac_unit";
   lit "thunderstorm"; lit "wb_cloudy"].

End Shapes.

(** * Sample data *)

Module Samples.

(** The display text [Pe&ntilde;a], with U+00F1. *)
Definition Pena : jsstring := lit "Pe" ++ [241%N] ++ lit "a".

(** An alert of the weather API. *)
Definition floodWatch : LocationSearch.Alert :=
  {| LocationSearch.event := Val (lit "Flood Watch");
     LocationSearch.headline := Val (lit "Flood Watch issued until 6 PM") |}.

Definition windAdvisory : LocationSearch.Alert :=
  {| LocationSearch.event := Val (lit "Wind Advisory");
     LocationSearch.headline := Val (lit "Wind Advisory until midnight") |}.

(** A weather page with all its elements, as the static markup has it. *)
Definition blankPage : LocationSearch.Page :=
  {| LocationSearch.h2 := Some (lit "Current Conditions");
     LocationSearch.tempElement := Some (lit "72" ++ degree ++ lit "F");
     LocationSearch.conditionElement := Some (lit "Partly Cloudy");
     LocationSearch.detailsContainer := Some [];
     LocationSearch.alertContent := Some [];
     LocationSearch.forecastContainer := Some [] |}.

(** An entry of the index of the unnamed script. *)
Definition newYork : Suggest.Location :=
  {| Suggest.zip := lit "10001"; Suggest.city := lit "New York";
     Suggest.state_id := lit "NY"; Suggest.lat := lit "40.75";
     Suggest.lng := lit "-73.99";
     Suggest.display := lit "New York, NY 10001";
     Suggest.search := lit "10001 New York NY" |}.

Definition csvHeader : jsstring := lit "zip,lat,lng,city,state".

(** A dataset whose only line has an infinite latitude and no state. *)
Definition csvInfinity : jsstring :=
  csvHeader ++ nl 0 ++ lit "10001,Infinity,-73.99,New York".

(** A dataset with a complete line, a line without state, a line whose
    latitude is not a number, and a line break at the end. *)
Definition csvMixed : jsstring :=
  csvHeader ++ nl 0 ++ lit "10001,40.75,-73.99,New York,NY"
  ++ nl 0 ++ lit "02108,42.36,-71.06,Boston"
  ++ nl 0 ++ lit "99999,n/a,-70.5,Nowhere,ZZ" ++ nl 0.

(** A dataset that ends in a line cut after its first column. *)
Definition csvCut : jsstring :=
  csvHeader ++ nl 0 ++ lit "10001,40.75,-73.99,New York,NY"
  ++ nl 0 ++ lit "0210".

(** Two entries of the index of the class. *)
Definition nyc : LocationSearch.Location :=
  {| LocationSearch.zip := lit "10001";
     LocationSearch.lat := Fin (4075 # 100);
     LocationSearch.lng := Fin (-7399 # 100);
     LocationSearch.city := lit "New York";
     LocationSearch.state := lit "NY";
     LocationSearch.displayText := lit "New York, NY 10001" |}.

Definition boston : LocationSearch.Location :=
  {| LocationSearch.zip := lit "02108";
     LocationSearch.lat := Fin (4236 # 100);
     LocationSearch.lng := Fin (-7106 # 100);
     LocationSearch.city := lit "Boston";
     LocationSearch.state := lit "MA";
     LocationSearch.displayText := lit "Boston, MA 02108" |}.

(** An observation none of whose fields is there. *)
Definition emptyObservation : LocationSearch.Observation :=
  {| LocationSearch.temperature := undefined;
     LocationSearch.textDescription := undefined;
     LocationSearch.relativeHumidity := undefined;
     LocationSearch.windSpeed := undefined;
     LocationSearch.windDirection := undefined |}.

(** An observation whose measurements are there with the value [null], as
    the weather API sends them when a station reports nothing. *)
Definition nullObservation : LocationSearch.Observation :=
  let none := Val {| LocationSearch.value := null |} in
  {| LocationSearch.temperature := none;
     LocationSearch.textDescription := Val [];
     LocationSearch.relativeHumidity := none;
     LocationSearch.windSpeed := none;
     LocationSearch.windDirection := none |}.

(** The weather data of a response that has the given observation, no
    forecast and no alerts. *)
Definition observed (cur : LocationSearch.Observation)
  : LocationSearch.WeatherData :=
  {| LocationSearch.current :=
       Val {| LocationSearch.current_properties := Val cur |};
     LocationSearch.forecast := null;
     LocationSearch.alerts := null |}.

(** The observations of two stations. *)
Definition clearAndMild : LocationSearch.Observation :=
  {| LocationSearch.temperature := Val {| LocationSearch.value := Val 20%Q |};
     LocationSearch.textDescription := Val (lit "Clear");
     LocationSearch.relativeHumidity :=
       Val {| LocationSearch.value := Val 50%Q |};
     LocationSearch.windSpeed := Val {| LocationSearch.value := Val 5%Q |};
     LocationSearch.windDirection :=
       Val {| LocationSearch.value := Val (405 # 2)%Q |} |}.

Definition coldRain : LocationSearch.Observation :=
  {| LocationSearch.temperature := Val {| LocationSearch.value := Val 5%Q |};
     LocationSearch.textDescription := Val (lit "Rain");
     LocationSearch.relativeHumidity :=
       Val {| LocationSearch.value := Val 90%Q |};
     LocationSearch.windSpeed := Val {| LocationSearch.value := Val 10%Q |};
     LocationSearch.windDirection :=
       Val {| LocationSearch.value := Val 0%Q |} |}.

Definition tonight : LocationSearch.Period :=
  {| LocationSearch.name := Val (lit "Tonight");
     LocationSearch.shortForecast := Val (lit "Mostly Clear");
     LocationSearch.period_temperature := Val 55 |}.

(** A weather API that answers every request. The point metadata of New
    York's latitude refer to the station and forecast of [nyc], those of any
    other point to [bos]; the station list is served when [stationsUp], and
    the latest observation of a station is given by [observe]. *)
Definition network (stationsUp : bool)
  (observe : jsstring -> LocationSearch.Observation) : LocationSearch.Network :=
  let tag (lat : JSNumber) : jsstring :=
    match lat with
    | Fin q => if Qeq_bool q (4075 # 100) then lit "nyc" else lit "bos"
    | _ => lit "bos"
    end in
  {| LocationSearch.fetchPoint := fun lat _ =>
       LocationSearch.Response true
         (Some (Val {| LocationSearch.point_properties :=
                         Val {| LocationSearch.observationStations :=
                                  Val (tag lat ++ lit "/stations");
                                LocationSearch.point_forecast :=
                                  Val (tag lat ++ lit "/forecast") |} |}));
     LocationSearch.fetchStations := fun url =>
       if stationsUp then
         LocationSearch.Response true
           (Some (Val {| LocationSearch.station_features :=
                           Val [ {| LocationSearch.station_properties :=
                                      Val {| LocationSearch.station_id :=
                                               Val (take 3 url) |} |} ] |}))
       else LocationSearch.NetworkError;
     LocationSearch.fetchObservation := fun url =>
       LocationSearch.Response true
         (Some (Val {| LocationSearch.current_properties :=
                         Val (observe (take 3 url)) |}));
     LocationSearch.fetchForecast := fun _ =>
       LocationSearch.Response true
         (Some (Val {| LocationSearch.forecast_properties :=
                         Val {| LocationSearch.periods := Val [tonight] |} |}));
     LocationSearch.fetchAlerts := fun _ _ =>
       LocationSearch.Response true (Some (Val {| LocationSearch.features := Val [] |})) |}.

(** New York is clear and mild, Boston has cold rain. *)
Definition observeByStation (station : jsstring) : LocationSearch.Observation :=
  if startsWith station (lit "nyc") then clearAndMild else coldRain.

(** The session the page starts in. *)
Definition startSession : LocationSearch.Session :=
  {| LocationSearch.widget := LocationSearch.initialWidget;
     LocationSearch.page := blankPage;
     LocationSearch.inflight := [] |}.

(** An index of the class with the two cities. *)
Definition twoCities : LocationSearch.Widget :=
  LocationSearch.set_locations [nyc; boston] LocationSearch.initialWidget.

(** A forecast period without a name. *)
Definition nameless : LocationSearch.Period :=
  {| LocationSearch.name := undefined;
     LocationSearch.shortForecast := Val (lit "Sunny");
     LocationSearch.period_temperature := Val 70 |}.

(** The forecast response that holds the given periods. *)
Definition forecastOf (ps : list LocationSearch.Period)
  : Opt LocationSearch.ForecastData :=
  Val {| LocationSearch.forecast_properties :=
           Val {| LocationSearch.periods := Val ps |} |}.

(** The alerts response that holds the given features. *)
Definition alertsOf (fs : list LocationSearch.AlertFeature)
  : Opt LocationSearch.AlertsData :=
  Val {| LocationSearch.features := Val fs |}.

End Samples.

(** * The matching rule in the words of the specification *)

Module SpecRule.

(** Follows the specification: normalization is case folding plus the
    stripping of diacritics, the combining marks U+0300 to U+036F that the
    decomposition separates from their letters. *)
Definition spec_normalize (s : jsstring) : jsstring :=
  removeRange 768 879 (normalizeNFD (toLowerCase s)).

(** Follows the specification: a record matches if its normalized zip starts
    with the query, or its normalized city contains the query, or its
    normalized state starts with the query. *)
Definition spec_matches (r : Suggest.Location) (query : jsstring) : bool :=
  let q := spec_normalize query in
  startsWith (spec_normalize (Suggest.zip r)) q
  || includes (spec_normalize (Suggest.city r)) q
  || startsWith (spec_normalize (Suggest.state_id r)) q.

End SpecRule.

(** * Properties *)

(** ** The built-in functions on concrete inputs *)

Example trim_sample : trim (lit "  New York ") = lit "New York".
Proof. reflexivity. Qed.

Example splitOn_sample :
  splitOn 44 (lit "10001,40.75,,NY") = [lit "10001"; lit "40.75"; []; lit "NY"]
  /\ splitOn 44 [] = [[]].
Proof. split; reflexivity. Qed.

Example indexOf_sample :
  indexOf (lit "boston") (lit "st") = 2
  /\ indexOf (lit "boston") (lit "x") = -1
  /\ indexOf [] [] = 0.
Proof. repeat split. Qed.

Example slice_sample :
  slice (lit "boston") 2 4 = lit "st"
  /\ slice (lit "boston") 4 99 = lit "on"
  /\ slice_from (lit "boston") 7 = [].
Proof. repeat split. Qed.

Example parseFloat_sample :
  parseFloat (lit " -73.99") = Fin (-7399 # 100)
  /\ parseFloat (lit "4.5e1 N") = Fin 45
  /\ parseFloat (lit "n/a") = NaN
  /\ parseFloat (lit "undefined") = NaN
  /\ parseFloat (lit "-Infinity") = Inf true.
Proof. repeat split. Qed.

Example Math_round_sample :
  Math_round (Fin (5 # 2)) = Fin 3
  /\ Math_round (Fin (-5 # 2)) = Fin (-2)
  /\ Math_round (Fin (11185 # 1000)) = Fin 11
  /\ Math_round NaN = NaN.
Proof. repeat split. Qed.

Example toStr_sample :
  toStr (Fin (-68)) = lit "-68"
  /\ toStr NaN = lit "NaN"
  /\ toStr (@undefined jsstring) = lit "undefined"
  /\ toStr (Val 55%Z) = lit "55".
Proof. repeat split. Qed.

Example normalizeNFD_sample :
  normalizeNFD (toLowerCase Samples.Pena) = lit "pen" ++ [771%N] ++ lit "a".
Proof. reflexivity. Qed.

(** ** Lists and strings *)

(** A branch that returns the page it was given, or one it has just built. *)
Ltac same_page H := injection H as <-; repeat split.

Lemma filter_sublist {A : Type} (f : A -> bool) (l : list A) :
  List.filter f l `sublist_of` l.
Proof.
  induction l as [|x l IH]; simpl.
  - constructor.
  - destruct (f x); [apply sublist_skip | apply sublist_cons]; exact IH.
Qed.

Lemma take_filter_sublist {A : Type} (f : A -> bool) (n : nat) (l : list A) :
  take n (List.filter f l) `sublist_of` l.
Proof.
  transitivity (List.filter f l); [apply sublist_take | apply filter_sublist].
Qed.

Lemma length_take_le {A : Type} (n : nat) (l : list A) :
  (length (take n l) <= n)%nat.
Proof. rewrite length_take. lia. Qed.

Lemma startsWith_app (q rest : jsstring) : startsWith (q ++ rest) q = true.
Proof.
  induction q as [|c q IH]; simpl; [reflexivity|].
  rewrite N.eqb_refl. exact IH.
Qed.

Lemma indexOf_from_found (before s q : jsstring) (i : Z) :
  startsWith s q = true -> 0 <= i -> 0 <= indexOf_from (before ++ s) q i.
Proof.
  revert i. induction before as [|c before IH]; intros i Hs Hi; simpl.
  - destruct s; simpl; rewrite Hs; exact Hi.
  - destruct (startsWith (c :: before ++ s) q); [exact Hi|].
    apply IH; [exact Hs | lia].
Qed.

(** A string includes each of its substrings. *)
Lemma includes_app (before q after : jsstring) :
  includes (before ++ q ++ after) q = true.
Proof.
  unfold includes, indexOf. apply Z.leb_le.
  apply indexOf_from_found; [apply startsWith_app | lia].
Qed.

(** A slice between two clamped positions. *)
Lemma slice_clamped (s : jsstring) (a b : Z) :
  (if a <? b then take (Z.to_nat (b - a)) (drop (Z.to_nat a) s) else [])
  = take (Z.to_nat (b - a)) (drop (Z.to_nat a) s).
Proof.
  destruct (a <? b) eqn:E; [reflexivity|].
  apply Z.ltb_ge in E. replace (Z.to_nat (b - a)) with 0%nat by lia.
  reflexivity.
Qed.

(** The three slices of [highlightMatch] cut the text in three pieces. *)
Lemma slice_three (s : jsstring) (i n : Z) :
  0 <= i -> 0 <= n ->
  slice s 0 i ++ slice s i (i + n) ++ slice_from s (i + n) = s.
Proof.
  intros Hi Hn. unfold slice_from, slice, slice_pos, str_length.
  set (len := Z.of_nat (length s)).
  assert (Hlen : 0 <= len) by (unfold len; lia).
  replace (0 <? 0) with false by reflexivity.
  replace (i <? 0) with false by (symmetry; apply Z.ltb_ge; lia).
  replace (i + n <? 0) with false by (symmetry; apply Z.ltb_ge; lia).
  replace (len <? 0) with false by (symmetry; apply Z.ltb_ge; lia).
  rewrite (Z.min_l 0 len) by lia. rewrite (Z.min_id len).
  set (a := Z.min i len). set (b := Z.min (i + n) len).
  assert (Hab : 0 <= a <= b /\ b <= len) by (unfold a, b; lia).
  rewrite !slice_clamped. rewrite Z.sub_0_r. simpl (Z.to_nat 0).
  rewrite drop_0.
  rewrite (take_ge (drop (Z.to_nat b) s))
    by (rewrite length_drop; unfold len; lia).
  rewrite <- (take_drop (Z.to_nat a) s) at 4. f_equal.
  rewrite <- (take_drop (Z.to_nat (b - a)) (drop (Z.to_nat a) s)) at 2.
  f_equal. rewrite drop_drop. f_equal. lia.
Qed.

(** ** The location index *)

Section LocationIndex.
Import LocationSearch.

Lemma showSuggestions_current (w : Widget) (query : jsstring) :
  currentSuggestions (showSuggestions w query)
  = take 10 (List.filter (matchesQuery query) (locations w)).
Proof.
  unfold showSuggestions. simpl.
  destruct (take 10 (List.filter (matchesQuery query) (locations w)));
    reflexivity.
Qed.

Lemma showSuggestions_locations (w : Widget) (query : jsstring) :
  locations (showSuggestions w query) = locations w.
Proof.
  unfold showSuggestions. simpl.
  destruct (length _ =? 0)%nat; reflexivity.
Qed.

Lemma handleInput_locations (w : Widget) (text : jsstring) :
  locations (handleInput w text) = locations w.
Proof.
  unfold handleInput.
  destruct (str_length (trim text) <? 2); [reflexivity|].
  rewrite showSuggestions_locations. reflexivity.
Qed.

(** What [Query] returns, by the length of the trimmed text. *)
Lemma Query_cases (w : Widget) (text : jsstring) :
  Query w text
  = if str_length (trim text) <? 2 then []
    else take 10 (List.filter (matchesQuery (trim text)) (locations w)).
Proof.
  unfold Query, handleInput.
  destruct (str_length (trim text) <? 2); [reflexivity|].
  rewrite showSuggestions_current. reflexivity.
Qed.

Lemma Suggest_Query_cases (locs : list Suggest.Location) (text : jsstring) :
  Suggest.Query locs text = []
  \/ Suggest.Query locs text
     = take 15 (List.filter (Suggest.matchesQuery (Suggest.normalize text)) locs).
Proof.
  unfold Suggest.Query.
  destruct (negb (truthy text) || (str_length text <? 2)); [left | right];
    reflexivity.
Qed.

(** C8. For every query and every dataset the result of [Query] has at most
    the cap's number of entries (10 in the class, 15 in the unnamed script),
    and its entries appear in the order of the dataset: the result is a
    subsequence of the list of locations. The index itself is left as it
    was. *)
Theorem Query_capped_in_dataset_order :
  (forall (w : Widget) (text : jsstring),
      (length (Query w text) <= 10)%nat
      /\ Query w text `sublist_of` locations w
      /\ locations (handleInput w text) = locations w)
  /\ (forall (locs : list Suggest.Location) (text : jsstring),
         (length (Suggest.Query locs text) <= 15)%nat
         /\ Suggest.Query locs text `sublist_of` locs).
Proof.
  split.
  - intros w text. rewrite Query_cases.
    destruct (str_length (trim text) <? 2).
    + repeat split; [simpl; lia | apply sublist_nil_l
                     | apply handleInput_locations].
    + repeat split; [apply length_take_le | apply take_filter_sublist
                     | apply handleInput_locations].
  - intros locs text.
    destruct (Suggest_Query_cases locs text) as [-> | ->].
    + split; [simpl; lia | apply sublist_nil_l].
    + split; [apply length_take_le | apply take_filter_sublist].
Qed.



(** The unnamed script tests the length of the text as it is typed, without
    trimming it: a text shorter than 2 clears the list, but a letter
    after a space is passed to the filter. *)
Lemma Suggest_short_text_cleared (locs : list Suggest.Location)
  (text : jsstring) :
  str_length text < 2 ->
  Suggest.showSuggestions locs text = Suggest.cleared
  /\ Suggest.Query locs text = [].
Proof.
  intros Hshort. apply Z.ltb_lt in Hshort.
  unfold Suggest.showSuggestions, Suggest.Query. rewrite Hshort.
  rewrite orb_true_r. split; reflexivity.
Qed.

Example Suggest_untrimmed_text_is_matched :
  str_length (trim (lit " a")) = 1
  /\ Suggest.Query [Samples.newYork] (lit " a") = [Samples.newYork].
Proof. split; vm_compute; reflexivity. Qed.

End LocationIndex.

(** ** Highlighting *)

Section Highlighting.
Import Suggest.

(** C4. [highlightMatch] is total, and its result is the text itself or the
    text with the two tags of the span put in: every character of the text
    is in the result, unchanged and in order, before, inside or after the
    span. So it is for [Pe&ntilde;a] and the query [pena], where the
    normalized strings are shorter than the originals. *)
Theorem highlightMatch_keeps_text :
  (forall text query : jsstring,
      exists pre mid post : jsstring,
        text = pre ++ mid ++ post
        /\ (highlightMatch text query = text
            \/ highlightMatch text query
               = pre ++ spanOpen ++ mid ++ spanClose ++ post))
  /\ highlightMatch Samples.Pena (lit "pena")
     = spanOpen ++ Samples.Pena ++ spanClose.
Proof.
  split; [|vm_compute; reflexivity].
  intros text query. unfold highlightMatch.
  set (idx := indexOf (normalize text) (normalize query)).
  destruct (idx <? 0) eqn:E.
  - exists [], text, []. rewrite app_nil_r. split; [reflexivity | left; reflexivity].
  - apply Z.ltb_ge in E.
    exists (slice text 0 idx), (slice text idx (idx + str_length query)),
      (slice_from text (idx + str_length query)).
    split; [|right; reflexivity].
    symmetry. apply slice_three; [exact E | unfold str_length; lia].
Qed.

End Highlighting.

(** ** Unit conversions *)

Section Conversions.
Import LocationSearch.
Local Open Scope Q_scope.

Lemma Qfloor_unique (x : Q) (k : Z) :
  inject_Z k <= x -> x < inject_Z (k + 1) -> Qfloor x = k.
Proof.
  intros Hlo Hhi.
  assert (H1 : (k <= Qfloor x)%Z).
  { rewrite <- (Qfloor_Z k). apply Qfloor_resp_le. exact Hlo. }
  assert (H2 : (Qfloor x < k + 1)%Z).
  { rewrite Zlt_Qlt. eapply Qle_lt_trans; [apply Qfloor_le | exact Hhi]. }
  lia.
Qed.

Lemma Qred_inject_Z (z : Z) : Qred (inject_Z z) = inject_Z z.
Proof.
  unfold Qred, inject_Z.
  pose proof (Z.ggcd_gcd z 1) as Hg.
  pose proof (Z.ggcd_correct_divisors z 1) as Hd.
  destruct (Z.ggcd z 1) as [g [a b]]. simpl in Hg, Hd.
  rewrite Z.gcd_1_r in Hg. subst g. destruct Hd as [Ha Hb].
  replace a with z by lia. replace b with 1%Z by lia. reflexivity.
Qed.

(** [Math.round] of a value within half a unit of the integer [k]. *)
Lemma Math_round_nearest (x : Q) (k : Z) :
  inject_Z k - (1 # 2) <= x -> x < inject_Z k + (1 # 2) ->
  Math_round (Fin x) = Fin (inject_Z k).
Proof.
  intros Hlo Hhi. unfold Math_round. do 2 f_equal. apply Qfloor_unique.
  - lra.
  - rewrite inject_Z_plus. change (inject_Z 1) with 1. lra.
Qed.

(** [k % 16] for a non-negative integer. *)
Lemma num_rem_16 (k : Z) :
  (0 <= k)%Z ->
  num_rem (Fin (inject_Z k)) (Fin 16) = Fin (inject_Z (k mod 16)).
Proof.
  intros Hk. unfold num_rem. change (Qzero 16) with false. cbv iota.
  f_equal. rewrite <- (Qred_inject_Z (k mod 16)). apply Qred_complete.
  assert (Ht : Qtrunc (inject_Z k / 16) = (k / 16)%Z).
  { unfold Qtrunc, Qneg. simpl. rewrite Z.mul_1_r.
    replace (k <? 0)%Z with false by (symmetry; apply Z.ltb_ge; lia).
    reflexivity. }
  rewrite Ht. rewrite (Z.mod_eq k 16) by lia.
  unfold Z.sub. rewrite inject_Z_plus, inject_Z_opp, inject_Z_mult.
  change (inject_Z 16) with 16. ring.
Qed.

Lemma array_get_index {A : Type} (arr : list A) (i : Z) :
  (0 <= i)%Z -> array_get arr (Fin (inject_Z i)) = arr !! Z.to_nat i.
Proof.
  intros Hi. unfold array_get. rewrite Qred_inject_Z. simpl.
  replace (0 <=? i)%Z with true by (symmetry; apply Z.leb_le; exact Hi).
  reflexivity.
Qed.

(** The bucket of [degreesToDirection]: a bearing within 11.25 degrees of
    [k * 22.5] (the upper end excluded) gets the label of index
    [k mod 16]. *)
Lemma degreesToDirection_bucket (d : Q) (k : Z) :
  (0 <= k)%Z ->
  (45 # 2) * inject_Z k - (45 # 4) <= d ->
  d < (45 # 2) * inject_Z k + (45 # 4) ->
  degreesToDirection (Fin d) = directions !! Z.to_nat (k mod 16).
Proof.
  intros Hk Hlo Hhi. unfold degreesToDirection.
  unfold num_div. change (Qzero (45 # 2)) with false. cbv iota.
  assert (Hx : Qred (d / (45 # 2)) == d * (2 # 45)).
  { rewrite Qred_correct. reflexivity. }
  rewrite (Math_round_nearest _ k).
  - rewrite num_rem_16 by exact Hk.
    apply array_get_index. apply Z.mod_pos_bound. lia.
  - rewrite Hx. lra.
  - rewrite Hx. lra.
Qed.

Lemma directions_label (i : Z) :
  (0 <= i < 16)%Z -> is_Some (directions !! Z.to_nat i).
Proof.
  intros Hi. apply lookup_lt_is_Some. simpl. lia.
Qed.



End Conversions.

(** ** Rendering *)

Section Rendering.
Import LocationSearch.

(** Each statement of [updateCurrent] writes to its own element. *)
Lemma updateTemperature_frame (p : Page) (cur : Observation) :
  h2 (updateTemperature p cur) = h2 p
  /\ conditionElement (updateTemperature p cur) = conditionElement p
  /\ detailsContainer (updateTemperature p cur) = detailsContainer p
  /\ alertContent (updateTemperature p cur) = alertContent p
  /\ forecastContainer (updateTemperature p cur) = forecastContainer p.
Proof.
  unfold updateTemperature.
  destruct (tempElement p), (temperature cur) as [| |t];
    try destruct (truthy (value t)); repeat split.
Qed.

Lemma updateCondition_frame (p : Page) (cur : Observation) :
  h2 (updateCondition p cur) = h2 p
  /\ tempElement (updateCondition p cur) = tempElement p
  /\ detailsContainer (updateCondition p cur) = detailsContainer p
  /\ alertContent (updateCondition p cur) = alertContent p
  /\ forecastContainer (updateCondition p cur) = forecastContainer p.
Proof.
  unfold updateCondition.
  destruct (conditionElement p), (textDescription cur) as [| |d];
    try destruct (truthy d); repeat split.
Qed.

Lemma updateDetails_frame (p : Page) (cur : Observation) :
  h2 (updateDetails p cur) = h2 p
  /\ tempElement (updateDetails p cur) = tempElement p
  /\ conditionElement (updateDetails p cur) = conditionElement p
  /\ alertContent (updateDetails p cur) = alertContent p
  /\ forecastContainer (updateDetails p cur) = forecastContainer p.
Proof.
  unfold updateDetails. destruct (detailsContainer p); repeat split.
Qed.

(** [updateCurrent] writes to the temperature, the condition and the details
    only. *)
Lemma updateCurrent_frame (p : Page) (cur : Observation) :
  h2 (updateCurrent p cur) = h2 p
  /\ alertContent (updateCurrent p cur) = alertContent p
  /\ forecastContainer (updateCurrent p cur) = forecastContainer p.
Proof.
  unfold updateCurrent.
  destruct (updateDetails_frame
              (updateCondition (updateTemperature p cur) cur) cur)
    as (-> & _ & _ & -> & ->).
  destruct (updateCondition_frame (updateTemperature p cur) cur)
    as (-> & _ & _ & -> & ->).
  destruct (updateTemperature_frame p cur) as (-> & _ & _ & -> & ->).
  repeat split.
Qed.

(** What a statement writes depends on its own element only. *)
Lemma updateCondition_element (p p' : Page) (cur : Observation) :
  conditionElement p = conditionElement p' ->
  conditionElement (updateCondition p cur)
  = conditionElement (updateCondition p' cur).
Proof.
  intros H. unfold updateCondition. rewrite H.
  destruct (conditionElement p') eqn:E, (textDescription cur) as [| |d];
    try destruct (truthy d); try reflexivity; congruence.
Qed.

Lemma updateDetails_element (p p' : Page) (cur : Observation) :
  detailsContainer p = detailsContainer p' ->
  detailsContainer (updateDetails p cur)
  = detailsContainer (updateDetails p' cur).
Proof.
  intros H. unfold updateDetails. rewrite H.
  destruct (detailsContainer p') eqn:E; try reflexivity; congruence.
Qed.

(** The three elements after [updateCurrent], each by its own statement. *)
Lemma updateCurrent_elements (p : Page) (cur : Observation) :
  tempElement (updateCurrent p cur) = tempElement (updateTemperature p cur)
  /\ conditionElement (updateCurrent p cur)
     = conditionElement (updateCondition p cur)
  /\ detailsContainer (updateCurrent p cur)
     = detailsContainer (updateDetails p cur).
Proof.
  unfold updateCurrent.
  destruct (updateDetails_frame
              (updateCondition (updateTemperature p cur) cur) cur)
    as (_ & -> & -> & _).
  destruct (updateCondition_frame (updateTemperature p cur) cur)
    as (_ & -> & Hd & _).
  destruct (updateTemperature_frame p cur) as (_ & Hc & Hd' & _).
  repeat split.
  - apply updateCondition_element. exact Hc.
  - apply updateDetails_element. congruence.
Qed.

(** A temperature without a reading is not written. *)
Lemma updateTemperature_skip (p : Page) (cur : Observation) :
  noReading (temperature cur) -> updateTemperature p cur = p.
Proof.
  intros Hmiss. unfold updateTemperature.
  destruct Hmiss as [[-> | ->] | (t & -> & [Hv | Hv])];
    destruct (tempElement p); try reflexivity; rewrite Hv; reflexivity.
Qed.

(** The temperature that is written for a reading. *)
Lemma updateTemperature_reading (p : Page) (cur : Observation) (t : Quantity) :
  is_Some (tempElement p) ->
  temperature cur = Val t ->
  truthy (value t) = true ->
  tempElement (updateTemperature p cur) = Some (temperatureText t).
Proof.
  intros [x Hx] Hcur Ht. unfold updateTemperature.
  rewrite Hx, Hcur, Ht. reflexivity.
Qed.

(** A missing description is not written. *)
Lemma updateCondition_skip (p : Page) (cur : Observation) :
  missing (textDescription cur) -> updateCondition p cur = p.
Proof.
  intros [H | H]; unfold updateCondition; rewrite H;
    destruct (conditionElement p); reflexivity.
Qed.

(** The elements that exist stay. *)
Lemma updateCurrent_is_Some (p : Page) (cur : Observation) :
  (is_Some (tempElement p) -> is_Some (tempElement (updateCurrent p cur)))
  /\ (is_Some (conditionElement p) ->
      is_Some (conditionElement (updateCurrent p cur))).
Proof.
  destruct (updateCurrent_elements p cur) as (-> & -> & _). split.
  - intros [x Hx]. unfold updateTemperature. rewrite Hx.
    destruct (temperature cur) as [| |t]; try destruct (truthy (value t));
      first [eexists; reflexivity | exists x; exact Hx].
  - intros [x Hx]. unfold updateCondition. rewrite Hx.
    destruct (textDescription cur) as [| |d]; try destruct (truthy d);
      first [eexists; reflexivity | exists x; exact Hx].
Qed.

(** [updateForecastUI] writes to the forecast container only. *)
Lemma updateForecastUI_frame (p p' : Page) (forecastData : Opt ForecastData) :
  updateForecastUI p forecastData = Some p' ->
  h2 p' = h2 p /\ tempElement p' = tempElement p
  /\ conditionElement p' = conditionElement p
  /\ detailsContainer p' = detailsContainer p
  /\ alertContent p' = alertContent p.
Proof.
  unfold updateForecastUI. intros H.
  destruct forecastData as [| |data]; [same_page H | same_page H |].
  destruct (forecast_properties data) as [| |props];
    [same_page H | same_page H |].
  destruct (periods props) as [| |ps]; [same_page H | same_page H |].
  destruct (forecastContainer p); [|same_page H].
  apply bind_Some in H as (rows & _ & H). same_page H.
Qed.

(** C10. When the list of features of the alerts response is not empty, the
    alert box shows one alert, the first of the list, with its event and its
    headline; the features after the first have no part in what is
    shown. *)
Theorem only_first_alert_is_shown (p : Page) (first : AlertFeature)
  (rest : list AlertFeature) (alert : Alert) :
  is_Some (h2 p) ->
  is_Some (alertContent p) ->
  alert_properties first = Val alert ->
  updateAlertsUI p (Val {| features := Val (first :: rest) |})
  = Some (set_alertContent (alertTemplate alert) p)
  /\ (forall data : WeatherData,
         alerts data = Val {| features := Val (first :: rest) |} ->
         alertContent (showWeather p data) = Some (alertTemplate alert))
  /\ includes (alertTemplate alert) (toStr (event alert)) = true
  /\ includes (alertTemplate alert) (toStr (headline alert)) = true.
Proof.
  intros [t Ht] [c Hc] Hfirst.
  assert (Hui : forall q : Page,
             h2 q = h2 p -> alertContent q = alertContent p ->
             updateAlertsUI q (Val {| features := Val (first :: rest) |})
             = Some (set_alertContent (alertTemplate alert) q)).
  { intros q Hq2 Hqa. unfold updateAlertsUI.
    rewrite Hq2, Hqa, Ht, Hc. simpl. rewrite Hfirst. reflexivity. }
  repeat split.
  - apply Hui; reflexivity.
  - intros data Halerts. unfold showWeather. rewrite Halerts.
    set (p1 := updateCurrentConditions p (current data)).
    assert (Hp1 : h2 p1 = h2 p /\ alertContent p1 = alertContent p).
    { unfold p1, updateCurrentConditions.
      destruct (current data) as [| |c0]; try tauto.
      destruct (current_properties c0) as [| |cur]; try tauto.
      pose proof (updateCurrent_frame p cur). tauto. }
    rewrite Hui by tauto.
    destruct (updateForecastUI _ (forecast data)) as [p3|] eqn:E;
      [|reflexivity].
    apply updateForecastUI_frame in E. destruct E as (_ & _ & _ & _ & ->).
    reflexivity.
  - unfold alertTemplate.
    rewrite !(app_assoc _ _ (toStr (event alert) ++ _)).
    apply includes_app.
  - unfold alertTemplate.
    rewrite !(app_assoc _ _ (toStr (headline alert) ++ _)).
    apply includes_app.
Qed.

Lemma only_first_alert_is_shown_witness :
  alertContent
    (showWeather Samples.blankPage
       {| current := null; forecast := null;
          alerts := Val {| features :=
                             Val [ {| alert_properties := Val Samples.floodWatch |};
                                   {| alert_properties := Val Samples.windAdvisory |} ] |} |})
  = Some (alertTemplate Samples.floodWatch).
Proof.
  refine (proj1 (proj2 (only_first_alert_is_shown Samples.blankPage
                          {| alert_properties := Val Samples.floodWatch |}
                          [ {| alert_properties := Val Samples.windAdvisory |} ]
                          Samples.floodWatch _ _ _)) _ _).
  - simpl. eexists. reflexivity.
  - simpl. eexists. reflexivity.
  - reflexivity.
  - reflexivity.
Defined.

End Rendering.

(** ** Matching in the unnamed script *)

Section Matching.
Import Suggest.

Lemma removeRange_app (lo hi : N) (s t : jsstring) :
  removeRange lo hi (s ++ t) = removeRange lo hi s ++ removeRange lo hi t.
Proof. apply List.filter_app. Qed.

(** Every code unit of the first two blocks is lowered and decomposed into
    code units of the class that [normalize] removes. *)
Lemma latin1_unit_erased (c : N) :
  (c <= 255)%N -> removeRange 0 879 (decompose_unit (lower_unit c)) = [].
Proof.
  intros Hc.
  assert (Hall : forallb
            (fun n => bool_decide
               (removeRange 0 879 (decompose_unit (lower_unit (N.of_nat n))) = []))
            (seq 0 256) = true) by (vm_compute; reflexivity).
  rewrite forallb_forall in Hall.
  assert (Hin : In (N.to_nat c) (seq 0 256)) by (apply in_seq; lia).
  apply Hall in Hin. rewrite N2Nat.id in Hin.
  apply bool_decide_eq_true in Hin. exact Hin.
Qed.

(** [normalize] leaves nothing of a string of the first two blocks. *)
Lemma normalize_latin1 (s : jsstring) :
  Forall (fun c => (c <= 255)%N) s -> normalize s = [].
Proof.
  unfold normalize, normalizeNFD, toLowerCase.
  induction 1 as [|c s Hc _ IH]; [reflexivity|].
  simpl. rewrite removeRange_app, IH, latin1_unit_erased by exact Hc.
  reflexivity.
Qed.

(** With an empty normalized query every record passes the filter. *)
Lemma matchesQuery_empty (loc : Location) : matchesQuery [] loc = true.
Proof. reflexivity. Qed.

Lemma filter_all {A : Type} (f : A -> bool) (l : list A) :
  (forall x, f x = true) -> List.filter f l = l.
Proof.
  intros Hf. induction l as [|x l IH]; simpl; [reflexivity|].
  rewrite Hf, IH. reflexivity.
Qed.

(** C3. On the index holding the one record (10001, New York, NY), the
    query [zz] returns that record, although under the specification's rule
    (zip and state by prefix, city by substring, after case folding and
    stripping of diacritics) the record does not match: [normalize] removes
    every code unit from U+0000 to U+036F, so the normalized query is empty.
    The same happens for every text of two or more code units of the Basic
    Latin and Latin-1 blocks: the result is the first fifteen records of the
    index. *)
Theorem normalize_makes_every_record_match :
  Query [Samples.newYork] (lit "zz") = [Samples.newYork]
  /\ SpecRule.spec_matches Samples.newYork (lit "zz") = false
  /\ normalize (lit "zz") = []
  /\ (forall (locs : list Location) (text : jsstring),
         Forall (fun c => (c <= 255)%N) text ->
         2 <= str_length text ->
         Query locs text = take 15 locs).
Proof.
  split; [vm_compute; reflexivity|].
  split; [vm_compute; reflexivity|].
  split; [vm_compute; reflexivity|].
  intros locs text Hlatin Hlen. unfold Query, matches.
  replace (str_length text <? 2) with false
    by (symmetry; apply Z.ltb_ge; exact Hlen).
  assert (Htruthy : truthy text = true).
  { destruct text; [unfold str_length in Hlen; simpl in Hlen; lia | reflexivity]. }
  rewrite Htruthy. simpl.
  rewrite normalize_latin1 by exact Hlatin.
  rewrite filter_all by apply matchesQuery_empty. reflexivity.
Qed.

Lemma normalize_makes_every_record_match_witness :
  Query [Samples.newYork; Samples.newYork] (lit "qx")
  = [Samples.newYork; Samples.newYork].
Proof.
  refine (proj2 (proj2 (proj2 normalize_makes_every_record_match))
            [Samples.newYork; Samples.newYork] (lit "qx") _ _).
  - repeat constructor; vm_compute; discriminate.
  - vm_compute. discriminate.
Defined.

End Matching.

(** ** Loading the dataset *)

Section Loading.
Import LocationSearch.

(** The callback of the [map] returns a record exactly on the lines of four
    columns or more. *)
Lemma rowToLocation_columns (line : jsstring) :
  is_Some (rowToLocation line) <-> (4 <= length (splitOn 44 line))%nat.
Proof.
  unfold rowToLocation. split.
  - intros [r Hr].
    destruct (splitOn 44 line !! 0%nat) as [v0|]; [|discriminate].
    destruct (splitOn 44 line !! 3%nat) as [v3|] eqn:E3; [|discriminate].
    apply lookup_lt_Some in E3. lia.
  - intros Hlen.
    destruct (lookup_lt_is_Some_2 (splitOn 44 line) 0) as [v0 ->]; [lia|].
    destruct (lookup_lt_is_Some_2 (splitOn 44 line) 3) as [v3 ->]; [lia|].
    simpl. eexists. reflexivity.
Qed.

(** A line of exactly four columns is loaded with the state [Unknown]. *)
Lemma rowToLocation_no_state (line : jsstring) (r : Location) :
  length (splitOn 44 line) = 4%nat ->
  rowToLocation line = Some r -> state r = lit "Unknown".
Proof.
  unfold rowToLocation. intros Hlen Hr.
  destruct (splitOn 44 line !! 0%nat) as [v0|]; [|discriminate].
  destruct (splitOn 44 line !! 3%nat) as [v3|]; [|discriminate].
  rewrite (lookup_ge_None_2 (splitOn 44 line) 4) in Hr by lia.
  simpl in Hr. injection Hr as <-. reflexivity.
Qed.

Lemma filter_validCoordinates (rows : list Location) :
  Forall (fun r => isNaN (lat r) = false /\ isNaN (lng r) = false)
    (List.filter validCoordinates rows).
Proof.
  apply List.Forall_forall. intros r Hr.
  apply List.filter_In in Hr as [_ Hr]. unfold validCoordinates in Hr.
  apply andb_true_iff in Hr as [H1 H2].
  split; apply negb_true_iff; assumption.
Qed.

(** A line cut before its fourth column makes the callback throw; the
    [catch] logs the error and the list of locations stays as it was, here
    empty, the complete line before the cut one being lost with it. *)
Lemma cut_line_aborts_load :
  parseLocations Samples.csvCut = None
  /\ locations (loadLocations initialWidget (Some Samples.csvCut)) = [].
Proof. split; vm_compute; reflexivity. Qed.

(** C9, as the claim states it, fails on a dataset whose only line has the
    latitude [Infinity] and no state column: the line has fewer columns than
    the header, yet it is loaded, and the latitude of the record is not
    finite. *)
Lemma loaded_record_not_finite :
  exists r : Location,
    locations (loadLocations initialWidget (Some Samples.csvInfinity)) = [r]
    /\ isFiniteNumber (lat r) = false
    /\ state r = lit "Unknown"
    /\ List.map (fun line => length (splitOn 44 line))
         (dataLines Samples.csvInfinity) = [4%nat].
Proof.
  eexists. split; [vm_compute; reflexivity|].
  split; [reflexivity|]. split; [reflexivity|].
  vm_compute. reflexivity.
Qed.

(** C9, amended. The loader is total: nothing it throws reaches its caller.
    When every line after the header has four columns or more, the list of
    locations is made, in the order of the file, of the records of the lines
    whose [lat] and [lng] columns [parseFloat] reads as a number; a line of
    exactly four columns gives a record with the state [Unknown]. Every
    record of the list has a [lat] and a [lng] that are not NaN. *)
Theorem loadLocations_keeps_numeric_rows (w : Widget) (csvText : jsstring) :
  Forall (fun line => (4 <= length (splitOn 44 line))%nat) (dataLines csvText) ->
  exists rows : list Location,
    Forall2 (fun line r => rowToLocation line = Some r) (dataLines csvText) rows
    /\ locations (loadLocations w (Some csvText))
       = List.filter validCoordinates rows
    /\ Forall (fun r => isNaN (lat r) = false /\ isNaN (lng r) = false)
         (locations (loadLocations w (Some csvText)))
    /\ Forall2 (fun line r =>
                  length (splitOn 44 line) = 4%nat -> state r = lit "Unknown")
         (dataLines csvText) rows.
Proof.
  intros Hcols.
  assert (Hsome : is_Some (mapM rowToLocation (dataLines csvText))).
  { apply mapM_is_Some. eapply Forall_impl; [exact Hcols|].
    intros line Hline. apply rowToLocation_columns. exact Hline. }
  destruct Hsome as [rows Hrows].
  assert (Hload : locations (loadLocations w (Some csvText))
                  = List.filter validCoordinates rows).
  { unfold loadLocations, parseLocations. simpl. rewrite Hrows. reflexivity. }
  exists rows. apply mapM_Some in Hrows.
  split; [exact Hrows|]. split; [exact Hload|].
  split; [rewrite Hload; apply filter_validCoordinates|].
  eapply Forall2_impl; [exact Hrows|].
  intros line r Hr Hlen. eapply rowToLocation_no_state; eassumption.
Qed.

Lemma loadLocations_keeps_numeric_rows_witness :
  exists rows : list Location,
    Forall2 (fun line r => rowToLocation line = Some r)
      (dataLines Samples.csvMixed) rows
    /\ locations (loadLocations initialWidget (Some Samples.csvMixed))
       = List.filter validCoordinates rows
    /\ Forall (fun r => isNaN (lat r) = false /\ isNaN (lng r) = false)
         (locations (loadLocations initialWidget (Some Samples.csvMixed)))
    /\ Forall2 (fun line r =>
                  length (splitOn 44 line) = 4%nat -> state r = lit "Unknown")
         (dataLines Samples.csvMixed) rows.
Proof.
  apply (loadLocations_keeps_numeric_rows initialWidget Samples.csvMixed).
  apply (bool_decide_unpack _). vm_compute. exact I.
Defined.

(** The three lines of the mixed dataset give two records: the line whose
    latitude is not a number is left out. *)
Example csvMixed_loads_two :
  List.map city (locations (loadLocations initialWidget (Some Samples.csvMixed)))
  = [lit "New York"; lit "Boston"].
Proof. vm_compute. reflexivity. Qed.

End Loading.

(** ** What each step writes *)

Section Frames.
Import LocationSearch.

(** [updateHeader] writes to the header only. *)
Lemma updateHeader_frame (p : Page) (location : Location) :
  tempElement (updateHeader p location) = tempElement p
  /\ conditionElement (updateHeader p location) = conditionElement p
  /\ detailsContainer (updateHeader p location) = detailsContainer p
  /\ alertContent (updateHeader p location) = alertContent p
  /\ forecastContainer (updateHeader p location) = forecastContainer p.
Proof.
  unfold updateHeader. destruct (h2 p) as [text|]; [|repeat split].
  destruct (includes text (lit "Current Conditions")); repeat split.
Qed.

(** A header that reads as a current-conditions one gets the name of the
    location, and still reads so afterwards. *)
Lemma updateHeader_h2 (p : Page) (location : Location) (text : jsstring) :
  h2 p = Some text ->
  includes text (lit "Current Conditions") = true ->
  h2 (updateHeader p location) = Some (headerText location).
Proof.
  intros Hh Hinc. unfold updateHeader. rewrite Hh, Hinc. reflexivity.
Qed.

Lemma headerText_includes (location : Location) :
  includes (headerText location) (lit "Current Conditions") = true.
Proof.
  unfold headerText.
  change (lit " - Current Conditions")
    with (lit " - " ++ lit "Current Conditions" ++ []).
  rewrite !(app_assoc _ _ (lit "Current Conditions" ++ _)).
  apply includes_app.
Qed.

(** [showMessage] writes the placeholder and the message where the elements
    exist, and nothing else. *)
Lemma showMessage_fields (p : Page) (message : jsstring) :
  h2 (showMessage p message) = h2 p
  /\ (is_Some (tempElement p) ->
      tempElement (showMessage p message) = Some noTemperature)
  /\ (is_Some (conditionElement p) ->
      conditionElement (showMessage p message) = Some message)
  /\ detailsContainer (showMessage p message) = detailsContainer p
  /\ alertContent (showMessage p message) = alertContent p
  /\ forecastContainer (showMessage p message) = forecastContainer p.
Proof.
  unfold showMessage.
  destruct (tempElement p) as [t|] eqn:Et;
    destruct (conditionElement p) as [c|] eqn:Ec; simpl;
    rewrite ?Ec; simpl; repeat split; intros [x Hx]; congruence.
Qed.

(** [updateAlertsUI] writes to the alert box only. *)
Lemma updateAlertsUI_frame (p p' : Page) (alertsData : Opt AlertsData) :
  updateAlertsUI p alertsData = Some p' ->
  h2 p' = h2 p /\ tempElement p' = tempElement p
  /\ conditionElement p' = conditionElement p
  /\ detailsContainer p' = detailsContainer p
  /\ forecastContainer p' = forecastContainer p.
Proof.
  unfold updateAlertsUI. intros H.
  apply bind_Some in H as (t & _ & H).
  destruct (alertContent p); [|same_page H].
  destruct alertsData as [| |data]; [same_page H | same_page H |].
  destruct (features data) as [| |[|first rest]];
    [same_page H | same_page H | same_page H |].
  apply bind_Some in H as (alert & _ & H). same_page H.
Qed.

(** After the current conditions, [showWeather] leaves the temperature, the
    condition and the details as they are. *)
Lemma showWeather_current (p : Page) (data : WeatherData) :
  let p1 := updateCurrentConditions p (current data) in
  h2 (showWeather p data) = h2 p1
  /\ tempElement (showWeather p data) = tempElement p1
  /\ conditionElement (showWeather p data) = conditionElement p1
  /\ detailsContainer (showWeather p data) = detailsContainer p1.
Proof.
  intros p1. unfold showWeather. fold p1.
  destruct (updateAlertsUI p1 (alerts data)) as [p2|] eqn:E2;
    [|repeat split].
  apply updateAlertsUI_frame in E2 as (H1 & H2 & H3 & H4 & _).
  destruct (updateForecastUI p2 (forecast data)) as [p3|] eqn:E3.
  - apply updateForecastUI_frame in E3 as (G1 & G2 & G3 & G4 & _).
    repeat split; congruence.
  - repeat split; assumption.
Qed.

(** The page once a fetch has started. *)
Lemma fetchStart_fields (p : Page) (location : Location) :
  (is_Some (tempElement p) ->
   tempElement (fetchStart p location) = Some noTemperature)
  /\ (is_Some (conditionElement p) ->
      conditionElement (fetchStart p location) = Some loadingMessage)
  /\ detailsContainer (fetchStart p location) = detailsContainer p
  /\ alertContent (fetchStart p location) = alertContent p
  /\ forecastContainer (fetchStart p location) = forecastContainer p.
Proof.
  unfold fetchStart, updateWeatherUI.
  change (truthy loadingMessage) with true. cbv iota.
  pose proof (updateHeader_frame p location) as (Ht & Hc & Hd & Ha & Hf).
  pose proof (showMessage_fields (updateHeader p location) loadingMessage)
    as (_ & Gt & Gc & Gd & Ga & Gf).
  rewrite Ht in Gt. rewrite Hc in Gc.
  repeat split; try assumption; congruence.
Qed.

(** The page once a fetch has failed. *)
Lemma fetch_failure_fields (p : Page) (location : Location) :
  let p' := updateWeatherUI p None (Some errorMessage) location in
  (is_Some (tempElement p) -> tempElement p' = Some noTemperature)
  /\ (is_Some (conditionElement p) -> conditionElement p' = Some errorMessage)
  /\ detailsContainer p' = detailsContainer p
  /\ alertContent p' = alertContent p
  /\ forecastContainer p' = forecastContainer p.
Proof.
  unfold updateWeatherUI.
  change (truthy errorMessage) with true. cbv iota.
  pose proof (updateHeader_frame p location) as (Ht & Hc & Hd & Ha & Hf).
  pose proof (showMessage_fields (updateHeader p location) errorMessage)
    as (_ & Gt & Gc & Gd & Ga & Gf).
  rewrite Ht in Gt. rewrite Hc in Gc.
  repeat split; try assumption; congruence.
Qed.

End Frames.

(** ** Missing fields of the observation *)

Section MissingFields.
Import LocationSearch.

(** C6, as the claim states it, fails on an observation that has none of its
    fields. After the fetch the description still shows the loading message
    and the wind direction is the empty string: neither is a placeholder
    such as [N/A]. *)
Lemma missing_fields_without_placeholder :
  let p := fetchWeatherData (Samples.network true (fun _ => Samples.emptyObservation))
             Samples.blankPage (lat Samples.nyc) (lng Samples.nyc) Samples.nyc in
  conditionElement p = Some loadingMessage
  /\ windDirectionText Samples.emptyObservation = []
  /\ detailsContainer p
     = Some (detailsTemplate (lit "N/A") (lit "N/A") []).
Proof. vm_compute. repeat split. Qed.

(** The measurements that are there with the value [null] are shown as if
    they were zero: humidity 0%, wind 0 mph, direction N. *)
Lemma null_values_shown_as_zero :
  humidityText Samples.nullObservation = lit "0%"
  /\ windSpeedText Samples.nullObservation = lit "0 mph"
  /\ windDirectionText Samples.nullObservation = lit "N".
Proof. vm_compute. repeat split. Qed.

(** C6, amended. When the humidity or the wind speed of the observation is
    missing or null, its text is [N/A]; when the wind direction is missing
    or null, its text is the empty string; these three texts make the
    details. When the temperature has no reading, or the description is
    missing or null, its element keeps the text it had: after a fetch, that
    is the placeholder of the temperature and the loading message written
    when the fetch started. *)
Theorem missing_fields_degrade_by_field (p : Page) (cur : Observation) :
  (missing (relativeHumidity cur) -> humidityText cur = lit "N/A")
  /\ (missing (windSpeed cur) -> windSpeedText cur = lit "N/A")
  /\ (missing (windDirection cur) -> windDirectionText cur = [])
  /\ (is_Some (detailsContainer p) ->
      detailsContainer (updateCurrent p cur)
      = Some (detailsTemplate (humidityText cur) (windSpeedText cur)
                (windDirectionText cur)))
  /\ (noReading (temperature cur) ->
      tempElement (updateCurrent p cur) = tempElement p)
  /\ (missing (textDescription cur) ->
      conditionElement (updateCurrent p cur) = conditionElement p)
  /\ (forall (net : Network) (location : Location) (data : WeatherData)
        (c : CurrentData),
         gather net (lat location) (lng location) = Some data ->
         current data = Val c ->
         current_properties c = Val cur ->
         let p' := fetchWeatherData net p (lat location) (lng location)
                     location in
         (is_Some (tempElement p) ->
          noReading (temperature cur) ->
          tempElement p' = Some noTemperature)
         /\ (is_Some (conditionElement p) ->
             missing (textDescription cur) ->
             conditionElement p' = Some loadingMessage)).
Proof.
  assert (Htemp : forall q : Page,
             noReading (temperature cur) ->
             tempElement (updateCurrent q cur) = tempElement q).
  { intros q Hmiss. destruct (updateCurrent_elements q cur) as (-> & _).
    rewrite updateTemperature_skip by exact Hmiss. reflexivity. }
  assert (Hcond : forall q : Page,
             missing (textDescription cur) ->
             conditionElement (updateCurrent q cur) = conditionElement q).
  { intros q Hmiss. destruct (updateCurrent_elements q cur) as (_ & -> & _).
    rewrite updateCondition_skip by exact Hmiss. reflexivity. }
  split; [intros [H | H]; unfold humidityText; rewrite H; reflexivity|].
  split; [intros [H | H]; unfold windSpeedText; rewrite H; reflexivity|].
  split; [intros [H | H]; unfold windDirectionText; rewrite H; reflexivity|].
  split.
  { intros [d0 Hd]. destruct (updateCurrent_elements p cur) as (_ & _ & ->).
    unfold updateDetails. rewrite Hd. reflexivity. }
  split; [apply Htemp|]. split; [apply Hcond|].
  intros net location data c Hgather Hcur Hprops p'.
  assert (Hp' : p' = showWeather
                       (updateHeader (fetchStart p location) location) data).
  { unfold p', fetchWeatherData, fetchSettle. rewrite Hgather. reflexivity. }
  pose proof (showWeather_current
                (updateHeader (fetchStart p location) location) data)
    as (_ & Ht & Hc & _).
  unfold updateCurrentConditions in Ht, Hc. rewrite Hcur, Hprops in Ht, Hc.
  pose proof (updateHeader_frame (fetchStart p location) location)
    as (Gt & Gc & _).
  pose proof (fetchStart_fields p location) as (Ft & Fc & _).
  split.
  - intros Hsome Hmiss. rewrite Hp', Ht, Htemp, Gt by exact Hmiss.
    apply Ft. exact Hsome.
  - intros Hsome Hmiss. rewrite Hp', Hc, Hcond, Gc by exact Hmiss.
    apply Fc. exact Hsome.
Qed.

Lemma missing_fields_degrade_by_field_witness :
  humidityText Samples.emptyObservation = lit "N/A"
  /\ tempElement
       (fetchWeatherData (Samples.network true (fun _ => Samples.emptyObservation))
          Samples.blankPage (lat Samples.nyc) (lng Samples.nyc) Samples.nyc)
     = Some noTemperature.
Proof.
  pose proof (missing_fields_degrade_by_field Samples.blankPage
                Samples.emptyObservation)
    as (Hhum & _ & _ & _ & _ & _ & Hflow).
  split.
  - apply Hhum. left. reflexivity.
  - eapply (Hflow (Samples.network true (fun _ => Samples.emptyObservation))
              Samples.nyc).
    + vm_compute. reflexivity.
    + reflexivity.
    + reflexivity.
    + eexists. reflexivity.
    + left. left. reflexivity.
Defined.

End MissingFields.

(** ** The fetch and its branches *)

Section Orchestration.
Import LocationSearch.

(** What [updateWeatherUI] leaves in the header and in the temperature. *)
Lemma updateWeatherUI_h2 (p : Page) (weatherData : option WeatherData)
  (message : option jsstring) (location : Location) (text : jsstring) :
  h2 p = Some text ->
  includes text (lit "Current Conditions") = true ->
  h2 (updateWeatherUI p weatherData message location)
  = Some (headerText location).
Proof.
  intros Hh Hinc.
  pose proof (updateHeader_h2 p location text Hh Hinc) as Hhead.
  assert (Hshow : forall data,
             h2 (showWeather (updateHeader p location) data)
             = Some (headerText location)).
  { intros data.
    destruct (showWeather_current (updateHeader p location) data) as (-> & _).
    unfold updateCurrentConditions.
    destruct (current data) as [| |c]; try exact Hhead.
    destruct (current_properties c) as [| |cur]; try exact Hhead.
    destruct (updateCurrent_frame (updateHeader p location) cur) as (-> & _).
    exact Hhead. }
  unfold updateWeatherUI.
  destruct message as [m|], weatherData as [data|];
    try destruct (truthy m); try apply Hshow; try exact Hhead;
    destruct (showMessage_fields (updateHeader p location) m) as (-> & _);
    exact Hhead.
Qed.

Lemma updateWeatherUI_tempElement_is_Some (p : Page)
  (weatherData : option WeatherData) (message : option jsstring)
  (location : Location) :
  is_Some (tempElement p) ->
  is_Some (tempElement (updateWeatherUI p weatherData message location)).
Proof.
  intros Hsome.
  assert (Hhead : is_Some (tempElement (updateHeader p location))).
  { destruct (updateHeader_frame p location) as (-> & _). exact Hsome. }
  assert (Hshow : forall data,
             is_Some (tempElement (showWeather (updateHeader p location) data))).
  { intros data.
    destruct (showWeather_current (updateHeader p location) data)
      as (_ & -> & _).
    unfold updateCurrentConditions.
    destruct (current data) as [| |c]; try exact Hhead.
    destruct (current_properties c) as [| |cur]; try exact Hhead.
    apply updateCurrent_is_Some. exact Hhead. }
  unfold updateWeatherUI.
  destruct message as [m|], weatherData as [data|];
    try destruct (truthy m); try apply Hshow; try exact Hhead;
    destruct (showMessage_fields (updateHeader p location) m)
      as (_ & Ht & _); rewrite Ht by exact Hhead; eexists; reflexivity.
Qed.

(** The page after a fetch that gathered its data. *)
Lemma fetchSettle_success (net : Network) (p : Page) (location : Location)
  (data : WeatherData) (c : CurrentData) (cur : Observation) (t : Quantity) :
  gather net (lat location) (lng location) = Some data ->
  current data = Val c ->
  current_properties c = Val cur ->
  temperature cur = Val t ->
  truthy (value t) = true ->
  is_Some (tempElement p) ->
  tempElement (fetchSettle net p (lat location) (lng location) location)
  = Some (temperatureText t).
Proof.
  intros Hgather Hcur Hprops Htemp Ht Hsome.
  unfold fetchSettle. rewrite Hgather. unfold updateWeatherUI.
  destruct (showWeather_current (updateHeader p location) data)
    as (_ & -> & _).
  unfold updateCurrentConditions. rewrite Hcur, Hprops.
  destruct (updateCurrent_elements (updateHeader p location) cur) as (-> & _).
  apply updateTemperature_reading; try assumption.
  destruct (updateHeader_frame p location) as (-> & _). exact Hsome.
Qed.

(** The page after a fetch that failed. *)
Lemma fetchSettle_failure (net : Network) (p : Page) (location : Location) :
  gather net (lat location) (lng location) = None ->
  fetchSettle net p (lat location) (lng location) location
  = updateWeatherUI p None (Some errorMessage) location.
Proof. intros Hgather. unfold fetchSettle. rewrite Hgather. reflexivity. Qed.

(** C2, as the claim states it, fails when the list of stations cannot be
    fetched while the point metadata, the forecast and the alerts are all
    served: the fetch ends on the error message, and the forecast and the
    alerts, although received, are not shown. *)
Lemma one_failed_branch_fails_the_fetch :
  let net := Samples.network false Samples.observeByStation in
  let lat0 := lat Samples.nyc in
  let lng0 := lng Samples.nyc in
  let p := fetchWeatherData net Samples.blankPage lat0 lng0 Samples.nyc in
  exists props : PointProperties,
    fetchPointProperties net lat0 lng0 = Some props
    /\ observationRequest net props = None
    /\ is_Some (forecastRequest net props ≫= json)
    /\ is_Some (alertsRequest net lat0 lng0 ≫= json)
    /\ conditionElement p = Some errorMessage
    /\ tempElement p = Some noTemperature
    /\ forecastContainer p = forecastContainer Samples.blankPage
    /\ alertContent p = alertContent Samples.blankPage.
Proof.
  eexists. split; [vm_compute; reflexivity|].
  split; [vm_compute; reflexivity|].
  split; [vm_compute; eexists; reflexivity|].
  split; [vm_compute; eexists; reflexivity|].
  vm_compute. repeat split.
Qed.

(** C2, amended. A branch of stage 2 fails when its request is rejected or
    its body is not JSON (for the observation, also when the first station
    cannot be read from the list of stations). When stage 1 succeeds and one
    of the three branches fails, whatever the other two give, the whole
    fetch fails: the page gets the error message and the placeholder of the
    temperature, and its details, alerts and forecast stay as they were. *)
Theorem failed_branch_fails_whole_fetch (net : Network) (p : Page)
  (location : Location) (props : PointProperties) :
  fetchPointProperties net (lat location) (lng location) = Some props ->
  observationRequest net props ≫= json = None
  \/ forecastRequest net props ≫= json = None
  \/ alertsRequest net (lat location) (lng location) ≫= json = None ->
  let p' := fetchSettle net p (lat location) (lng location) location in
  p' = updateWeatherUI p None (Some errorMessage) location
  /\ (is_Some (conditionElement p) -> conditionElement p' = Some errorMessage)
  /\ (is_Some (tempElement p) -> tempElement p' = Some noTemperature)
  /\ detailsContainer p' = detailsContainer p
  /\ alertContent p' = alertContent p
  /\ forecastContainer p' = forecastContainer p.
Proof.
  intros Hpoint Hfail p'.
  assert (Hgather : gather net (lat location) (lng location) = None).
  { unfold gather. rewrite Hpoint. simpl. unfold fetchBranches, Promise_all3.
    destruct (observationRequest net props) as [r1|]; [|reflexivity].
    destruct (forecastRequest net props) as [r2|]; [|reflexivity].
    destruct (alertsRequest net (lat location) (lng location)) as [r3|];
      [|reflexivity].
    simpl in *.
    destruct Hfail as [-> | [-> | ->]]; [reflexivity| |].
    - destruct (json r1); reflexivity.
    - destruct (json r1); [|reflexivity]. destruct (json r2); reflexivity. }
  assert (Hp' : p' = updateWeatherUI p None (Some errorMessage) location)
    by (apply fetchSettle_failure; exact Hgather).
  split; [exact Hp'|]. rewrite Hp'.
  pose proof (fetch_failure_fields p location) as (Ht & Hc & Hd & Ha & Hf).
  repeat split; assumption.
Qed.

Lemma failed_branch_fails_whole_fetch_witness :
  conditionElement
    (fetchSettle (Samples.network false Samples.observeByStation)
       Samples.blankPage (lat Samples.nyc) (lng Samples.nyc) Samples.nyc)
  = Some errorMessage.
Proof.
  eapply (failed_branch_fails_whole_fetch
            (Samples.network false Samples.observeByStation)
            Samples.blankPage Samples.nyc).
  - vm_compute. reflexivity.
  - left. vm_compute. reflexivity.
  - eexists. reflexivity.
Defined.

End Orchestration.

(** ** Selections in succession *)

Section Sessions.
Import LocationSearch.

(** Every fetch that settles writes its outcome to the page, whichever
    selections were made since it started. *)
Lemma settle_applies (net : Network) (s : Session) (i : nat)
  (location : Location) :
  inflight s !! i = Some location ->
  page (step net s (Settle i))
  = fetchSettle net (page s) (lat location) (lng location) location
  /\ inflight (step net s (Settle i)) = delete i (inflight s).
Proof. intros Hi. simpl. rewrite Hi. split; reflexivity. Qed.

(** A fetch that settles leaves the search box and the dropdown alone. *)
Lemma settle_widget (net : Network) (s : Session) (i : nat) :
  widget (step net s (Settle i)) = widget s.
Proof. simpl. destruct (inflight s !! i); reflexivity. Qed.

(** Two selections, then the second fetch settles, then the first. *)
Lemma run_A_B_settleB_settleA (net : Network) (s : Session) (A B : Location) :
  let n := length (inflight s) in
  let s' := run net s [Select A; Select B; Settle (S n); Settle n] in
  page s'
  = fetchSettle net
      (fetchSettle net (fetchStart (fetchStart (page s) A) B)
         (lat B) (lng B) B)
      (lat A) (lng A) A
  /\ inflight s' = inflight s
  /\ searchValue (widget s') = displayText B.
Proof.
  intros n s'. set (s2 := selectLocation (selectLocation s A) B).
  change s' with (step net (step net s2 (Settle (S n))) (Settle n)).
  clear s'.
  assert (Hin2 : inflight s2 = (inflight s ++ [A]) ++ [B]) by reflexivity.
  assert (Hn : S n = length (inflight s ++ [A])).
  { rewrite length_app. simpl. unfold n. lia. }
  assert (HB : inflight s2 !! S n = Some B).
  { rewrite Hin2. apply list_lookup_middle. exact Hn. }
  destruct (settle_applies net s2 (S n) B HB) as [Hp3 Hi3].
  set (s3 := step net s2 (Settle (S n))) in *.
  assert (Hin3 : inflight s3 = inflight s ++ [A]).
  { rewrite Hi3, Hin2, Hn. rewrite delete_middle. apply app_nil_r. }
  assert (HA : inflight s3 !! n = Some A).
  { rewrite Hin3. apply list_lookup_middle. reflexivity. }
  destruct (settle_applies net s3 n A HA) as [Hp4 Hi4].
  split; [rewrite Hp4, Hp3; reflexivity|].
  split.
  - rewrite Hi4, Hin3. unfold n. rewrite delete_middle. apply app_nil_r.
  - rewrite settle_widget. unfold s3. rewrite settle_widget. reflexivity.
Qed.




End Sessions.

(** * Further properties of the class *)

(** ** The dropdown *)

Section Dropdown.
Import LocationSearch.

(** X1. After an input event the dropdown and the fields of the object
    agree: when the dropdown is visible, there are suggestions and its items
    are their display texts, in order; when it is hidden, there is no
    suggestion and no selected index. The search box holds the text. *)
Theorem dropdown_agrees_with_suggestions (w : Widget) (text : jsstring) :
  let w' := handleInput w text in
  (suggestionsHidden w' = false ->
   currentSuggestions w' <> []
   /\ suggestionItems w' = List.map displayText (currentSuggestions w'))
  /\ (suggestionsHidden w' = true ->
      currentSuggestions w' = [] /\ selectedIndex w' = -1)
  /\ searchValue w' = text.
Proof.
  intros w'. unfold w', handleInput.
  destruct (str_length (trim text) <? 2).
  - split; [intros H; discriminate H|]. repeat split.
  - unfold showSuggestions. simpl.
    destruct (take 10 (List.filter (matchesQuery (trim text)) (locations w)))
      as [|r found]; simpl.
    + split; [intros H; discriminate H|]. repeat split.
    + split; [intros _; split; [discriminate | reflexivity]|].
      split; [intros H; discriminate H | reflexivity].
Qed.

Lemma dropdown_agrees_with_suggestions_witness :
  suggestionItems (handleInput Samples.twoCities (lit " bos"))
  = [lit "Boston, MA 02108"].
Proof.
  destruct (dropdown_agrees_with_suggestions Samples.twoCities (lit " bos"))
    as (Hvis & _ & _).
  destruct Hvis as [_ Hitems]; [vm_compute; reflexivity|].
  rewrite Hitems. vm_compute. reflexivity.
Defined.

End Dropdown.

(** ** Matching in the class *)

Section ClassMatching.
Import LocationSearch.

Lemma startsWith_length (s q : jsstring) :
  startsWith s q = true -> (length q <= length s)%nat.
Proof.
  revert s. induction q as [|c q IH]; intros s H; simpl; [lia|].
  destruct s as [|d s]; simpl in H; [discriminate|].
  apply andb_true_iff in H as [_ H]. apply IH in H. simpl. lia.
Qed.

Lemma indexOf_from_length (s q : jsstring) (i : Z) :
  0 <= indexOf_from s q i -> (length q <= length s)%nat.
Proof.
  revert i. induction s as [|c s IH]; intros i H; simpl in H.
  - destruct (startsWith [] q) eqn:E; [apply startsWith_length; exact E | lia].
  - destruct (startsWith (c :: s) q) eqn:E;
      [apply startsWith_length; exact E|].
    apply IH in H. simpl. lia.
Qed.

(** What a string includes is not longer than it. *)
Lemma includes_length (s q : jsstring) :
  includes s q = true -> (length q <= length s)%nat.
Proof.
  unfold includes, indexOf. intros H. apply Z.leb_le in H.
  eapply indexOf_from_length. exact H.
Qed.

Lemma toLowerCase_length (s : jsstring) : length (toLowerCase s) = length s.
Proof. apply length_map. Qed.

Lemma toLowerCase_app (s t : jsstring) :
  toLowerCase (s ++ t) = toLowerCase s ++ toLowerCase t.
Proof. apply map_app. Qed.

Lemma truthy_nonempty (s : jsstring) : truthy s = true <-> s <> [].
Proof.
  destruct s; unfold truthy, truthy_string; simpl; split; intros H;
    congruence.
Qed.

Lemma In_take_filter {A : Type} (f : A -> bool) (n : nat) (l : list A) (x : A) :
  In x (take n (List.filter f l)) -> In x l /\ f x = true.
Proof.
  intros H. apply List.filter_In. apply list_elem_of_In.
  apply list_elem_of_In in H.
  eapply elem_of_sublist; [exact H | apply sublist_take].
Qed.

(** What passing the filter means. *)
Lemma matchesQuery_true (query : jsstring) (r : Location) :
  matchesQuery query r = true <->
  city r <> [] /\ state r <> [] /\ zip r <> []
  /\ (includes (toLowerCase (city r)) (toLowerCase query) = true
      \/ includes (toLowerCase (state r)) (toLowerCase query) = true
      \/ includes (zip r) query = true).
Proof.
  unfold matchesQuery. change (truthy r) with true. simpl negb at 1.
  rewrite orb_false_l.
  destruct (truthy (city r)) eqn:Ec, (truthy (state r)) eqn:Es,
    (truthy (zip r)) eqn:Ez; simpl;
    try (apply truthy_nonempty in Ec); try (apply truthy_nonempty in Es);
    try (apply truthy_nonempty in Ez);
    try (assert (Hc : city r = []) by (destruct (city r); [reflexivity | discriminate]));
    try (assert (Hs : state r = []) by (destruct (state r); [reflexivity | discriminate]));
    try (assert (Hz : zip r = []) by (destruct (zip r); [reflexivity | discriminate]));
    rewrite ?orb_true_iff; split; intros H; try discriminate; try tauto.
Qed.

(** With ten matching records or fewer, every one of them is suggested. *)
Lemma matching_record_is_suggested (w : Widget) (text : jsstring)
  (r : Location) :
  2 <= str_length (trim text) ->
  (length (List.filter (matchesQuery (trim text)) (locations w)) <= 10)%nat ->
  In r (locations w) ->
  matchesQuery (trim text) r = true ->
  In r (Query w text).
Proof.
  intros Hlen Hfew Hloc Hmatch. rewrite Query_cases.
  replace (str_length (trim text) <? 2) with false
    by (symmetry; apply Z.ltb_ge; exact Hlen).
  rewrite take_ge by exact Hfew.
  apply List.filter_In. split; assumption.
Qed.

(** X2. A record is among the suggestions for a text only if it is in the
    index, the trimmed text has two code units or more, its city, state and
    zip are not empty, and its lowered city or state contains the lowered
    query or its zip contains the query as typed. When ten records or fewer
    pass the filter, every record that passes is among the suggestions. *)
Theorem suggestions_are_the_matching_records (w : Widget) (text : jsstring)
  (r : Location) :
  (In r (Query w text) ->
   In r (locations w)
   /\ 2 <= str_length (trim text)
   /\ city r <> [] /\ state r <> [] /\ zip r <> []
   /\ (includes (toLowerCase (city r)) (toLowerCase (trim text)) = true
       \/ includes (toLowerCase (state r)) (toLowerCase (trim text)) = true
       \/ includes (zip r) (trim text) = true))
  /\ (2 <= str_length (trim text) ->
      (length (List.filter (matchesQuery (trim text)) (locations w)) <= 10)%nat ->
      In r (locations w) ->
      matchesQuery (trim text) r = true ->
      In r (Query w text)).
Proof.
  split; [|apply matching_record_is_suggested].
  rewrite Query_cases.
  destruct (str_length (trim text) <? 2) eqn:E; [intros []|].
  apply Z.ltb_ge in E. intros Hin.
  apply In_take_filter in Hin as [Hloc Hmatch].
  apply matchesQuery_true in Hmatch. tauto.
Qed.

Lemma suggestions_are_the_matching_records_witness :
  In Samples.boston (Query Samples.twoCities (lit "021")).
Proof.
  apply (proj2 (suggestions_are_the_matching_records Samples.twoCities
                  (lit "021") Samples.boston)).
  - vm_compute. discriminate.
  - vm_compute. lia.
  - right. left. reflexivity.
  - vm_compute. reflexivity.
Defined.



(** X4. A record does not pass the filter for its own display text, when
    that text has no white space at its ends: after a location is selected,
    giving the focus back to the search box does not suggest it again. *)
Theorem selected_location_not_suggested_again (s : Session) (r : Location) :
  displayText r = city r ++ lit ", " ++ state r ++ lit " " ++ zip r ->
  trim (displayText r) = displayText r ->
  matchesQuery (displayText r) r = false
  /\ ~ In r (currentSuggestions (handleFocus (widget (selectLocation s r)))).
Proof.
  intros Hdisplay Htrim.
  assert (Hlen : length (displayText r)
                 = (length (city r) + length (state r) + length (zip r) + 3)%nat).
  { rewrite Hdisplay, !length_app. simpl. lia. }
  assert (Hno : matchesQuery (displayText r) r = false).
  { apply not_true_is_false. intros H. apply matchesQuery_true in H.
    destruct H as (_ & _ & _ & [H | [H | H]]); apply includes_length in H;
      rewrite ?toLowerCase_length in H; lia. }
  split; [exact Hno|].
  unfold handleFocus. simpl. rewrite Htrim.
  destruct (2 <=? str_length (displayText r)); [|intros []].
  rewrite showSuggestions_current. intros Hin.
  apply In_take_filter in Hin as [_ Hf]. congruence.
Qed.

Lemma selected_location_not_suggested_again_witness :
  matchesQuery (displayText Samples.nyc) Samples.nyc = false.
Proof.
  apply (selected_location_not_suggested_again Samples.startSession Samples.nyc);
    reflexivity.
Defined.

End ClassMatching.

(** ** Keyboard navigation *)

Section KeyboardNavigation.
Import LocationSearch Keyboard.

Lemma handleKeydown_empty (s : Session) (key : Key) :
  currentSuggestions (widget s) = [] -> handleKeydown s key = s.
Proof. intros H. unfold handleKeydown. rewrite H. reflexivity. Qed.



(** X6. [Enter] selects the suggestion at the selected index: the search
    box gets its display text, the dropdown is hidden and the weather of the
    location is fetched. With no item selected, or with an index past the
    end of the list, [Enter] changes nothing. Typing that leaves the dropdown
    visible keeps the selected index, which may then point past the end of a
    shorter list. *)
Theorem Enter_selects_the_highlighted_suggestion (s : Session) :
  (forall (i : nat) (location : Location),
      selectedIndex (widget s) = Z.of_nat i ->
      currentSuggestions (widget s) !! i = Some location ->
      handleKeydown s Enter = selectLocation s location
      /\ searchValue (widget (handleKeydown s Enter)) = displayText location
      /\ suggestionsHidden (widget (handleKeydown s Enter)) = true
      /\ inflight (handleKeydown s Enter) = inflight s ++ [location])
  /\ (selectedIndex (widget s) < 0
      \/ Z.of_nat (length (currentSuggestions (widget s)))
         <= selectedIndex (widget s) ->
      handleKeydown s Enter = s)
  /\ (forall text : jsstring,
         suggestionsHidden (handleInput (widget s) text) = false ->
         selectedIndex (handleInput (widget s) text) = selectedIndex (widget s)).
Proof.
  split; [|split].
  - intros i location Hidx Hloc.
    assert (Hsel : handleKeydown s Enter = selectLocation s location).
    { unfold handleKeydown.
      destruct (currentSuggestions (widget s)) as [|r rest] eqn:E;
        [rewrite lookup_nil in Hloc; discriminate|].
      replace (Z.of_nat (length (r :: rest)) =? 0) with false
        by (symmetry; apply Z.eqb_neq; simpl; lia).
      rewrite Hidx.
      replace (0 <=? Z.of_nat i) with true by (symmetry; apply Z.leb_le; lia).
      rewrite Nat2Z.id, Hloc. reflexivity. }
    rewrite Hsel. repeat split.
  - intros Hout. unfold handleKeydown.
    destruct (Z.of_nat (length (currentSuggestions (widget s))) =? 0);
      [reflexivity|].
    destruct (0 <=? selectedIndex (widget s)) eqn:E; [|reflexivity].
    apply Z.leb_le in E.
    rewrite lookup_ge_None_2 by lia. reflexivity.
  - intros text. unfold handleInput.
    destruct (str_length (trim text) <? 2); [discriminate|].
    unfold showSuggestions. simpl.
    destruct (take 10 (List.filter (matchesQuery (trim text))
                         (locations (widget s)))); simpl;
      [discriminate | reflexivity].
Qed.

Lemma Enter_selects_the_highlighted_suggestion_witness :
  let s := {| widget := Keyboard.set_selectedIndex 1
                          (handleInput Samples.twoCities (lit "10"));
              page := Samples.blankPage; inflight := [] |} in
  searchValue (widget (handleKeydown s Enter)) = lit "Boston, MA 02108".
Proof.
  intros s.
  destruct (Enter_selects_the_highlighted_suggestion s) as (Hsel & _ & _).
  destruct (Hsel 1%nat Samples.boston) as (_ & Hbox & _).
  - reflexivity.
  - vm_compute. reflexivity.
  - exact Hbox.
Defined.

(** X7. From a dropdown that has just been shown, with no item selected,
    pressing [ArrowDown] [n] times selects the item of index [min n len - 1],
    [len] being the number of suggestions: the selection stops at the last
    item. The suggestions stay as they are. *)
Theorem ArrowDown_stops_at_last_item (s : Session) (n : nat) :
  currentSuggestions (widget s) <> [] ->
  selectedIndex (widget s) = -1 ->
  let s' := Nat.iter n (fun s0 => handleKeydown s0 ArrowDown) s in
  selectedIndex (widget s')
  = Z.min (Z.of_nat n) (Z.of_nat (length (currentSuggestions (widget s)))) - 1
  /\ currentSuggestions (widget s') = currentSuggestions (widget s).
Proof.
  intros Hne Hstart. induction n as [|n IH].
  - simpl. split; [|reflexivity]. rewrite Hstart.
    destruct (currentSuggestions (widget s)); [congruence | simpl; lia].
  - cbn zeta in IH |- *. rewrite Nat.iter_succ.
    set (s1 := Nat.iter n (fun s0 => handleKeydown s0 ArrowDown) s) in *.
    destruct IH as [Hidx Hsug]. unfold handleKeydown. rewrite Hsug.
    destruct (currentSuggestions (widget s)) as [|r rest] eqn:E;
      [congruence|].
    replace (Z.of_nat (length (r :: rest)) =? 0) with false
      by (symmetry; apply Z.eqb_neq; simpl; lia).
    simpl widget. simpl selectedIndex. simpl currentSuggestions.
    rewrite Hidx. simpl length. split; [lia | exact Hsug].
Qed.

Lemma ArrowDown_stops_at_last_item_witness :
  let s := {| widget := handleInput Samples.twoCities (lit "10");
              page := Samples.blankPage; inflight := [] |} in
  selectedIndex (widget (Nat.iter 5 (fun s0 => handleKeydown s0 ArrowDown) s))
  = 1.
Proof.
  intros s.
  destruct (ArrowDown_stops_at_last_item s 5) as [Hidx _].
  - vm_compute. discriminate.
  - reflexivity.
  - rewrite Hidx. vm_compute. reflexivity.
Defined.

(** X8. After [Escape] there is no suggestion and no selected index, and
    every key that follows leaves the session as it is, until the next
    input. *)
Theorem keys_after_Escape_do_nothing (s : Session) (keys : list Key) :
  let s' := handleKeydown s Escape in
  (currentSuggestions (widget s) <> [] ->
   currentSuggestions (widget s') = [] /\ selectedIndex (widget s') = -1
   /\ suggestionsHidden (widget s') = true)
  /\ (currentSuggestions (widget s) = [] -> s' = s)
  /\ fold_left handleKeydown keys s' = s'.
Proof.
  intros s'.
  assert (Hempty : currentSuggestions (widget s') = []).
  { unfold s', handleKeydown.
    destruct (currentSuggestions (widget s)) as [|r rest] eqn:E; simpl;
      [exact E | reflexivity]. }
  split; [|split].
  - intros Hne. unfold s', handleKeydown.
    destruct (currentSuggestions (widget s)) as [|r rest]; [congruence|].
    repeat split.
  - intros H. apply handleKeydown_empty. exact H.
  - induction keys as [|key keys IH]; [reflexivity|].
    simpl. rewrite handleKeydown_empty by exact Hempty. exact IH.
Qed.

Lemma keys_after_Escape_do_nothing_witness :
  let s := {| widget := handleInput Samples.twoCities (lit "10");
              page := Samples.blankPage; inflight := [] |} in
  currentSuggestions (widget (handleKeydown s Escape)) = [].
Proof.
  intros s.
  destruct (keys_after_Escape_do_nothing s [ArrowDown; Enter]) as (H & _ & _).
  destruct H as (H & _); [vm_compute; discriminate | exact H].
Defined.

End KeyboardNavigation.

(** ** The loader on short files *)

Section LoaderEdges.
Import LocationSearch.

Lemma splitOn_without_separator (sep : N) (s : jsstring) :
  Forall (fun c => c <> sep) s -> splitOn sep s = [s].
Proof.
  induction 1 as [|c s Hc _ IH]; [reflexivity|].
  simpl. rewrite IH. apply N.eqb_neq in Hc. rewrite Hc. reflexivity.
Qed.

Lemma rowToLocation_displayText (line : jsstring) (r : Location) :
  rowToLocation line = Some r ->
  displayText r = city r ++ lit ", " ++ state r ++ lit " " ++ zip r.
Proof.
  unfold rowToLocation. intros H.
  destruct (splitOn 44 line !! 0%nat) as [v0|]; [|discriminate].
  destruct (splitOn 44 line !! 3%nat) as [v3|]; [|discriminate].
  simpl in H. injection H as <-. reflexivity.
Qed.

(** X9. The first line of the file is taken for the header and never gives
    a record: a file that loads gives at most one record per line after the
    first, and a file without a line break (an empty file, or a header
    alone) gives the empty list, which replaces the list there was. The
    display text of every loaded record is its city, a comma, its state and
    its zip. *)
Theorem loader_skips_the_first_line (w : Widget) (csvText : jsstring) :
  (Forall (fun c => c <> 10%N) (trim csvText) ->
   locations (loadLocations w (Some csvText)) = [])
  /\ (forall l : list Location,
         parseLocations csvText = Some l ->
         locations (loadLocations w (Some csvText)) = l
         /\ (length l < length (splitOn 10 (trim csvText)))%nat
         /\ Forall (fun r => displayText r
                             = city r ++ lit ", " ++ state r ++ lit " " ++ zip r)
              l).
Proof.
  split.
  - intros Hone. unfold loadLocations, parseLocations, dataLines. simpl.
    rewrite splitOn_without_separator by exact Hone. reflexivity.
  - intros l Hparse.
    split; [unfold loadLocations; simpl; rewrite Hparse; reflexivity|].
    unfold parseLocations in Hparse.
    apply bind_Some in Hparse as (rows & Hrows & Hl).
    injection Hl as <-. apply mapM_Some in Hrows.
    pose proof (Forall2_length _ _ _ Hrows) as Hlen.
    split.
    + pose proof (filter_sublist validCoordinates rows) as Hsub.
      apply sublist_length in Hsub.
      unfold dataLines in Hlen. rewrite length_drop in Hlen.
      assert (Hpos : (0 < length (splitOn 10 (trim csvText)))%nat).
      { destruct (trim csvText) as [|c s]; simpl; [lia|].
        destruct (c =? 10)%N; [simpl; lia|].
        destruct (splitOn 10 s); simpl; lia. }
      lia.
    + apply List.Forall_forall. intros r Hr.
      apply List.filter_In in Hr as [Hr _].
      apply list_elem_of_In, list_elem_of_lookup in Hr as [i Hi].
      destruct (Forall2_lookup_r _ _ _ _ _ Hrows Hi) as (line & _ & Hline).
      eapply rowToLocation_displayText. exact Hline.
Qed.

Lemma loader_skips_the_first_line_witness :
  locations (loadLocations Samples.twoCities (Some Samples.csvHeader)) = [].
Proof.
  apply (proj1 (loader_skips_the_first_line Samples.twoCities
                  Samples.csvHeader)).
  apply (bool_decide_unpack _). vm_compute. exact I.
Defined.

End LoaderEdges.

(** ** The forecast and the alerts *)

Section ForecastAndAlerts.
Import LocationSearch Shapes.

Lemma periodTemplate_is_Some (period : Period) :
  is_Some (periodTemplate period) <-> rowReady period.
Proof.
  unfold periodTemplate, rowReady, formatDayName, getWeatherIcon.
  destruct (name period) as [| |n], (shortForecast period) as [| |f]; simpl;
    split; intros H; try (destruct H as [? H]; discriminate H);
    try (destruct H as [[? H] [? H']]; discriminate);
    try (split; eexists; reflexivity); eexists; reflexivity.
Qed.

Lemma updateForecastUI_periods (p : Page) (ps : list Period) :
  updateForecastUI p (Samples.forecastOf ps)
  = match forecastContainer p with
    | None => Some p
    | Some _ =>
        rows ← mapM periodTemplate (take 7 ps);
        Some (set_forecastContainer (concat rows) p)
    end.
Proof. reflexivity. Qed.

(** X10. The forecast shows the first seven periods of the response and no
    more: the periods after the seventh have no part in the result, whatever
    they hold. When each of the first seven has a name and a short forecast,
    the container gets one row per period, in order. *)
Theorem forecast_shows_first_seven_periods (p : Page) (ps : list Period) :
  updateForecastUI p (Samples.forecastOf ps)
  = updateForecastUI p (Samples.forecastOf (take 7 ps))
  /\ (is_Some (forecastContainer p) ->
      Forall rowReady (take 7 ps) ->
      exists rows : list jsstring,
        Forall2 (fun period row => periodTemplate period = Some row)
          (take 7 ps) rows
        /\ length rows = Nat.min 7 (length ps)
        /\ updateForecastUI p (Samples.forecastOf ps)
           = Some (set_forecastContainer (concat rows) p)).
Proof.
  split.
  - rewrite !updateForecastUI_periods, take_take. reflexivity.
  - intros [c Hc] Hready.
    assert (Hsome : is_Some (mapM periodTemplate (take 7 ps))).
    { apply mapM_is_Some. eapply Forall_impl; [exact Hready|].
      intros period. apply periodTemplate_is_Some. }
    destruct Hsome as [rows Hrows]. exists rows.
    pose proof Hrows as H2. apply mapM_Some in H2.
    split; [exact H2|]. split.
    + rewrite <- (Forall2_length _ _ _ H2), length_take. reflexivity.
    + rewrite updateForecastUI_periods, Hc. apply bind_Some.
      exists rows. split; [exact Hrows | reflexivity].
Qed.

Lemma forecast_shows_first_seven_periods_witness :
  updateForecastUI Samples.blankPage
    (Samples.forecastOf (repeat Samples.tonight 7 ++ [Samples.nameless]))
  = updateForecastUI Samples.blankPage
      (Samples.forecastOf (repeat Samples.tonight 7))
  /\ is_Some (updateForecastUI Samples.blankPage
                (Samples.forecastOf (repeat Samples.tonight 7 ++ [Samples.nameless]))).
Proof.
  destruct (forecast_shows_first_seven_periods Samples.blankPage
              (repeat Samples.tonight 7 ++ [Samples.nameless])) as [Hcut Hrows].
  split; [exact Hcut|].
  destruct Hrows as (rows & _ & _ & ->).
  - eexists. reflexivity.
  - repeat constructor; eexists; reflexivity.
  - eexists. reflexivity.
Defined.

(** X11. When one of the first seven periods has no name or no short
    forecast, the forecast throws before it writes: the container keeps what
    it held, no row of the other periods is shown, and the alerts, written
    before, stay written. *)
Theorem bad_period_leaves_forecast_unchanged (p : Page) (data : WeatherData)
  (ps : list Period) (i : nat) (period : Period) :
  is_Some (forecastContainer p) ->
  forecast data = Samples.forecastOf ps ->
  ps !! i = Some period ->
  (i < 7)%nat ->
  missing (name period) \/ missing (shortForecast period) ->
  (forall q : Page,
      forecastContainer q = forecastContainer p ->
      updateForecastUI q (forecast data) = None)
  /\ forecastContainer (showWeather p data) = forecastContainer p
  /\ (forall p2 : Page,
         updateAlertsUI (updateCurrentConditions p (current data)) (alerts data)
         = Some p2 ->
         showWeather p data = p2).
Proof.
  intros [c Hc] Hdata Hperiod Hi Hmiss.
  assert (Hbad : periodTemplate period = None).
  { unfold periodTemplate, formatDayName, getWeatherIcon.
    destruct Hmiss as [[-> | ->] | [-> | ->]]; simpl; try reflexivity;
      destruct (name period); reflexivity. }
  assert (Hmap : mapM periodTemplate (take 7 ps) = None).
  { destruct (mapM periodTemplate (take 7 ps)) as [rows|] eqn:E;
      [|reflexivity].
    apply mapM_Some in E.
    assert (Htake : take 7 ps !! i = Some period)
      by (rewrite lookup_take_lt by exact Hi; exact Hperiod).
    destruct (Forall2_lookup_l _ _ _ _ _ E Htake) as (row & _ & Hrow).
    congruence. }
  assert (Hthrow : forall q : Page,
             forecastContainer q = forecastContainer p ->
             updateForecastUI q (forecast data) = None).
  { intros q Hq. rewrite Hdata, updateForecastUI_periods, Hq, Hc.
    apply bind_None. left. exact Hmap. }
  split; [exact Hthrow|].
  set (p1 := updateCurrentConditions p (current data)).
  assert (Hp1 : forecastContainer p1 = forecastContainer p).
  { unfold p1, updateCurrentConditions.
    destruct (current data) as [| |cd]; try reflexivity.
    destruct (current_properties cd) as [| |cur]; try reflexivity.
    apply updateCurrent_frame. }
  unfold showWeather. fold p1.
  destruct (updateAlertsUI p1 (alerts data)) as [p2|] eqn:E2.
  - pose proof (updateAlertsUI_frame _ _ _ E2) as (_ & _ & _ & _ & Hf).
    rewrite Hthrow by congruence.
    split; [congruence|]. intros p2' H. congruence.
  - split; [exact Hp1 | intros p2' H; discriminate H].
Qed.

Lemma bad_period_leaves_forecast_unchanged_witness :
  forecastContainer
    (showWeather Samples.blankPage
       {| current := null;
          forecast := Samples.forecastOf [Samples.tonight; Samples.nameless];
          alerts := null |})
  = Some [].
Proof.
  eapply (bad_period_leaves_forecast_unchanged Samples.blankPage _
            [Samples.tonight; Samples.nameless] 1 Samples.nameless).
  - eexists. reflexivity.
  - reflexivity.
  - reflexivity.
  - lia.
  - left. left. reflexivity.
Defined.

Lemma formatDayName_Val (n : jsstring) :
  formatDayName (Val n)
  = Some (if includes n (lit "This") || includes n (lit "Tonight")
          then lit "Today" else substring0 n 3).
Proof. reflexivity. Qed.

(** X12. The day label of a forecast period is [Today] when the name of the
    period contains [This] or [Tonight], wherever in the name and with these
    capitals, and the first three code units of the name otherwise (the
    whole name when it is shorter); it is never longer than five code
    units. A period without a name makes [formatDayName] throw. *)
Theorem day_label_of_a_period :
  (forall before after : jsstring,
      formatDayName (Val (before ++ lit "Tonight" ++ after)) = Some (lit "Today")
      /\ formatDayName (Val (before ++ lit "This" ++ after)) = Some (lit "Today"))
  /\ (forall n : jsstring,
         includes n (lit "This") = false ->
         includes n (lit "Tonight") = false ->
         formatDayName (Val n) = Some (take 3 n))
  /\ (forall n label : jsstring,
         formatDayName (Val n) = Some label -> (length label <= 5)%nat)
  /\ formatDayName undefined = None /\ formatDayName null = None.
Proof.
  split; [|split; [|split]].
  - intros before after.
    rewrite !formatDayName_Val, !includes_app, ?orb_true_r.
    split; reflexivity.
  - intros n H1 H2. rewrite formatDayName_Val, H1, H2. reflexivity.
  - intros n label H. rewrite formatDayName_Val in H.
    injection H as <-.
    destruct (includes n (lit "This") || includes n (lit "Tonight"));
      [simpl; lia|].
    destruct n as [|a [|b [|c l]]]; simpl; lia.
  - split; reflexivity.
Qed.

Lemma day_label_of_a_period_witness :
  formatDayName (Val (lit "Thursday Night")) = Some (lit "Thu").
Proof.
  apply (proj1 (proj2 day_label_of_a_period) (lit "Thursday Night"));
    vm_compute; reflexivity.
Defined.

Lemma lower_unit_idempotent (c : N) : lower_unit (lower_unit c) = lower_unit c.
Proof.
  unfold lower_unit.
  destruct ((65 <=? c) && (c <=? 90))%N eqn:E1.
  - apply andb_true_iff in E1 as [H1 H2].
    apply N.leb_le in H1, H2.
    replace ((65 <=? c + 32) && (c + 32 <=? 90))%N with false
      by (symmetry; apply andb_false_iff; right; apply N.leb_gt; lia).
    replace ((192 <=? c + 32) && (c + 32 <=? 222))%N with false
      by (symmetry; apply andb_false_iff; left; apply N.leb_gt; lia).
    reflexivity.
  - destruct ((192 <=? c) && (c <=? 222) && negb (c =? 215))%N eqn:E2.
    + apply andb_true_iff in E2 as [E2 _].
      apply andb_true_iff in E2 as [H1 H2]. apply N.leb_le in H1, H2.
      replace ((65 <=? c + 32) && (c + 32 <=? 90))%N with false
        by (symmetry; apply andb_false_iff; right; apply N.leb_gt; lia).
      replace ((192 <=? c + 32) && (c + 32 <=? 222))%N with false
        by (symmetry; apply andb_false_iff; right; apply N.leb_gt; lia).
      reflexivity.
    + rewrite E1, E2. reflexivity.
Qed.

Lemma toLowerCase_idempotent (s : jsstring) :
  toLowerCase (toLowerCase s) = toLowerCase s.
Proof.
  unfold toLowerCase. rewrite List.map_map.
  apply List.map_ext. apply lower_unit_idempotent.
Qed.

Lemma getWeatherIcon_Val (condition : jsstring) :
  getWeatherIcon (Val condition)
  = (let c := toLowerCase condition in
     Some (if includes c (lit "sunny") || includes c (lit "clear")
           then lit "wb_sunny"
           else if includes c (lit "cloudy") || includes c (lit "overcast")
           then lit "cloud"
           else if includes c (lit "rain") || includes c (lit "shower")
           then lit "rainy"
           else if includes c (lit "snow") then lit "ac_unit"
           else if includes c (lit "storm") || includes c (lit "thunder")
           then lit "thunderstorm"
           else lit "wb_cloudy")).
Proof. reflexivity. Qed.

(** X13. The icon of a short forecast is one of six names; it does not
    depend on the case of the letters; and a forecast that mentions [sunny]
    or [clear] gets the sun whatever else it mentions. A period without a
    short forecast makes [getWeatherIcon] throw. *)
Theorem icon_of_a_short_forecast :
  (forall condition : jsstring,
      exists icon : jsstring,
        getWeatherIcon (Val condition) = Some icon /\ In icon weatherIcons)
  /\ (forall condition : jsstring,
         getWeatherIcon (Val (toLowerCase condition))
         = getWeatherIcon (Val condition))
  /\ (forall before after : jsstring,
         getWeatherIcon (Val (before ++ lit "sunny" ++ after))
         = Some (lit "wb_sunny")
         /\ getWeatherIcon (Val (before ++ lit "clear" ++ after))
            = Some (lit "wb_sunny"))
  /\ getWeatherIcon undefined = None /\ getWeatherIcon null = None.
Proof.
  split; [|split; [|split]].
  - intros condition. rewrite getWeatherIcon_Val. cbv zeta.
    set (c := toLowerCase condition).
    destruct (includes c (lit "sunny") || includes c (lit "clear"));
      [eexists; split; [reflexivity | simpl; tauto]|].
    destruct (includes c (lit "cloudy") || includes c (lit "overcast"));
      [eexists; split; [reflexivity | simpl; tauto]|].
    destruct (includes c (lit "rain") || includes c (lit "shower"));
      [eexists; split; [reflexivity | simpl; tauto]|].
    destruct (includes c (lit "snow"));
      [eexists; split; [reflexivity | simpl; tauto]|].
    destruct (includes c (lit "storm") || includes c (lit "thunder"));
      eexists; (split; [reflexivity | simpl; tauto]).
  - intros condition. rewrite !getWeatherIcon_Val. cbv zeta.
    rewrite toLowerCase_idempotent. reflexivity.
  - intros before after. rewrite !getWeatherIcon_Val. cbv zeta.
    rewrite !toLowerCase_app.
    change (toLowerCase (lit "sunny")) with (lit "sunny").
    change (toLowerCase (lit "clear")) with (lit "clear").
    rewrite !includes_app, ?orb_true_r. split; reflexivity.
  - split; reflexivity.
Qed.

(** X14. When the response has no alert (the response or its list of
    features is missing or null, or the list is empty), the alert box of a
    page that has one gets the message [No active weather alerts]. *)
Theorem no_alert_gets_the_all_clear (p : Page) (alertsData : Opt AlertsData) :
  is_Some (h2 p) ->
  is_Some (alertContent p) ->
  noAlert alertsData ->
  updateAlertsUI p alertsData = Some (set_alertContent noAlertsTemplate p)
  /\ includes noAlertsTemplate (lit "No active weather alerts") = true.
Proof.
  intros [t Ht] [c Hc] Hnone. split; [|vm_compute; reflexivity].
  unfold updateAlertsUI. rewrite Ht, Hc. simpl.
  destruct Hnone as [[-> | ->] | (data & -> & [[H | H] | H])];
    try reflexivity; rewrite H; reflexivity.
Qed.

Lemma no_alert_gets_the_all_clear_witness :
  updateAlertsUI Samples.blankPage (Samples.alertsOf [])
  = Some (set_alertContent noAlertsTemplate Samples.blankPage).
Proof.
  apply (no_alert_gets_the_all_clear Samples.blankPage (Samples.alertsOf [])).
  - eexists. reflexivity.
  - eexists. reflexivity.
  - right. eexists. split; [reflexivity | right; reflexivity].
Defined.

(** X15. [updateAlertsUI] throws on a page without [h2], and when the first
    feature of a page with its alert box has no properties; the rest of the
    update is then skipped: the current conditions are written, the alert
    box and the forecast are not, whatever the forecast of the response. *)
Theorem failed_alerts_skip_the_forecast (p : Page) (data : WeatherData) :
  h2 p = None
  \/ (is_Some (alertContent p)
      /\ exists (first : AlertFeature) (rest : list AlertFeature),
           alerts data = Samples.alertsOf (first :: rest)
           /\ missing (alert_properties first)) ->
  showWeather p data = updateCurrentConditions p (current data)
  /\ alertContent (showWeather p data) = alertContent p
  /\ forecastContainer (showWeather p data) = forecastContainer p.
Proof.
  intros Hthrow.
  set (p1 := updateCurrentConditions p (current data)).
  assert (Hp1 : h2 p1 = h2 p /\ alertContent p1 = alertContent p
                /\ forecastContainer p1 = forecastContainer p).
  { unfold p1, updateCurrentConditions.
    destruct (current data) as [| |cd]; try (repeat split; reflexivity).
    destruct (current_properties cd) as [| |cur];
      try (repeat split; reflexivity).
    apply updateCurrent_frame. }
  destruct Hp1 as (H2 & Ha & Hf).
  assert (Hnone : updateAlertsUI p1 (alerts data) = None).
  { unfold updateAlertsUI. rewrite H2, Ha.
    destruct Hthrow as [-> | ([c Hc] & first & rest & -> & Hmiss)];
      [reflexivity|].
    rewrite Hc. destruct (h2 p); [|reflexivity]. simpl.
    destruct Hmiss as [-> | ->]; reflexivity. }
  unfold showWeather. fold p1. rewrite Hnone. repeat split; assumption.
Qed.

Lemma failed_alerts_skip_the_forecast_witness :
  forecastContainer
    (showWeather Samples.blankPage
       {| current := null;
          forecast := Samples.forecastOf [Samples.tonight];
          alerts := Samples.alertsOf [ {| alert_properties := null |} ] |})
  = Some [].
Proof.
  eapply (failed_alerts_skip_the_forecast Samples.blankPage).
  right. split; [eexists; reflexivity|].
  eexists _, _. split; [reflexivity | right; reflexivity].
Defined.

End ForecastAndAlerts.

(** ** The header along a session *)

Section HeaderInvariant.
Import LocationSearch Shapes.

(** The header after [updateWeatherUI] is the one [updateHeader] leaves. *)
Lemma updateWeatherUI_header (p : Page) (weatherData : option WeatherData)
  (message : option jsstring) (location : Location) :
  h2 (updateWeatherUI p weatherData message location)
  = h2 (updateHeader p location).
Proof.
  assert (Hshow : forall data,
             h2 (showWeather (updateHeader p location) data)
             = h2 (updateHeader p location)).
  { intros data.
    destruct (showWeather_current (updateHeader p location) data) as (-> & _).
    unfold updateCurrentConditions.
    destruct (current data) as [| |c]; try reflexivity.
    destruct (current_properties c) as [| |cur]; try reflexivity.
    apply updateCurrent_frame. }
  unfold updateWeatherUI.
  destruct message as [m|], weatherData as [data|];
    try destruct (truthy m); try apply Hshow; try reflexivity;
    apply showMessage_fields.
Qed.

Lemma updateHeader_cases (p : Page) (location : Location) :
  (headerOpen p -> h2 (updateHeader p location) = Some (headerText location))
  /\ (~ headerOpen p -> h2 (updateHeader p location) = h2 p).
Proof.
  unfold headerOpen, updateHeader. split.
  - intros (text & -> & ->). reflexivity.
  - intros Hclosed. destruct (h2 p) as [text|] eqn:Eh; [|exact Eh].
    destruct (includes text (lit "Current Conditions")) eqn:E; [|exact Eh].
    exfalso. apply Hclosed. exists text. split; [reflexivity | exact E].
Qed.

Lemma headerText_open (p : Page) (location : Location) :
  h2 p = Some (headerText location) -> headerOpen p.
Proof.
  intros H. exists (headerText location).
  split; [exact H | apply headerText_includes].
Qed.

(** One event: the header is renamed, kept open, or left alone. *)
Lemma step_header (net : Network) (s : Session) (e : Event) :
  (headerOpen (page s) -> headerOpen (page (step net s e)))
  /\ (~ headerOpen (page s) -> h2 (page (step net s e)) = h2 (page s)).
Proof.
  assert (Hwrite : forall wd msg location,
             (headerOpen (page s) ->
              headerOpen (updateWeatherUI (page s) wd msg location))
             /\ (~ headerOpen (page s) ->
                 h2 (updateWeatherUI (page s) wd msg location) = h2 (page s))).
  { intros wd msg location.
    destruct (updateHeader_cases (page s) location) as [Hopen Hclosed].
    split; intros H.
    - apply (headerText_open _ location).
      rewrite updateWeatherUI_header. apply Hopen. exact H.
    - rewrite updateWeatherUI_header. apply Hclosed. exact H. }
  destruct e as [text | location | i]; simpl.
  - tauto.
  - apply Hwrite.
  - destruct (inflight s !! i) as [location|]; [|tauto].
    simpl. unfold fetchSettle.
    destruct (gather net (lat location) (lng location)); apply Hwrite.
Qed.

(** X16. Along every session, a header that reads as a current-conditions
    one keeps reading so, whatever is selected, typed or settled, so that
    every later update can name its location in it; a header that does not
    read so, or a page without header, is never written. *)
Theorem header_stays_open_or_untouched (net : Network) (s : Session)
  (events : list Event) :
  (headerOpen (page s) -> headerOpen (page (run net s events)))
  /\ (~ headerOpen (page s) -> h2 (page (run net s events)) = h2 (page s)).
Proof.
  revert s. induction events as [|e events IH]; intros s; simpl.
  - tauto.
  - destruct (step_header net s e) as [Hopen Hclosed].
    destruct (IH (step net s e)) as [IHopen IHclosed].
    split; intros H.
    + apply IHopen, Hopen, H.
    + assert (Hstill : ~ headerOpen (page (step net s e))).
      { intros (text & Ht & Hinc). apply H. exists text.
        rewrite <- Hclosed by exact H. split; assumption. }
      rewrite IHclosed by exact Hstill. apply Hclosed. exact H.
Qed.

Lemma header_stays_open_or_untouched_witness :
  headerOpen
    (page (run (Samples.network true Samples.observeByStation)
             Samples.startSession
             [Select Samples.nyc; Input (lit "bo"); Select Samples.boston;
              Settle 0; Settle 0])).
Proof.
  apply (proj1 (header_stays_open_or_untouched _ Samples.startSession _)).
  exists (lit "Current Conditions"). split; [reflexivity|].
  vm_compute. reflexivity.
Defined.

End HeaderInvariant.

(** ** The requests of a fetch *)

Section Requests.
Import LocationSearch Shapes.

(** X17. When the request for the point metadata is rejected, or answers
    with a status that is not a success, whatever its body, the fetch fails
    without any other request having a part in the outcome: the page gets
    the error message, and so it does on every network that answers that
    first request in the same way. *)
Theorem failed_point_request_fails_the_fetch (net net' : Network) (p : Page)
  (location : Location) :
  fetchPoint net' (lat location) (lng location)
  = fetchPoint net (lat location) (lng location) ->
  fetchPoint net (lat location) (lng location) = NetworkError
  \/ (exists body, fetchPoint net (lat location) (lng location)
                   = Response false body) ->
  fetchSettle net' p (lat location) (lng location) location
  = updateWeatherUI p None (Some errorMessage) location
  /\ (is_Some (conditionElement p) ->
      conditionElement (fetchSettle net' p (lat location) (lng location) location)
      = Some errorMessage).
Proof.
  intros Hsame Hfail.
  assert (Hnone : gather net' (lat location) (lng location) = None).
  { unfold gather, fetchPointProperties. rewrite Hsame.
    destruct Hfail as [-> | [body ->]]; reflexivity. }
  rewrite fetchSettle_failure by exact Hnone.
  split; [reflexivity|]. apply fetch_failure_fields.
Qed.

Lemma failed_point_request_fails_the_fetch_witness :
  let down := {| fetchPoint := fun _ _ => Response false None;
                 fetchStations := fetchStations (Samples.network true Samples.observeByStation);
                 fetchObservation := fetchObservation (Samples.network true Samples.observeByStation);
                 fetchForecast := fetchForecast (Samples.network true Samples.observeByStation);
                 fetchAlerts := fetchAlerts (Samples.network true Samples.observeByStation) |} in
  conditionElement
    (fetchSettle down Samples.blankPage (lat Samples.nyc) (lng Samples.nyc)
       Samples.nyc)
  = Some errorMessage.
Proof.
  intros down.
  apply (failed_point_request_fails_the_fetch down down Samples.blankPage
           Samples.nyc).
  - reflexivity.
  - right. eexists. reflexivity.
  - eexists. reflexivity.
Defined.

Lemma await_asOk {A : Type} (r : Fetched A) :
  await_fetch (asOk r) ≫= json = await_fetch r ≫= json.
Proof. destruct r; reflexivity. Qed.

(** X18. Only the first request has its status tested. For the stations,
    the observation, the forecast and the alerts the script reads the body
    whatever the status: an error status on any of them changes nothing to
    what the fetch gathers, nor to the page. *)
Theorem stage2_status_is_not_tested (net : Network) (p : Page)
  (lat0 lng0 : JSNumber) (location : Location) :
  gather (stage2Ok net) lat0 lng0 = gather net lat0 lng0
  /\ fetchSettle (stage2Ok net) p lat0 lng0 location
     = fetchSettle net p lat0 lng0 location.
Proof.
  assert (Hgather : gather (stage2Ok net) lat0 lng0 = gather net lat0 lng0).
  { unfold gather.
    change (fetchPointProperties (stage2Ok net) lat0 lng0)
      with (fetchPointProperties net lat0 lng0).
    destruct (fetchPointProperties net lat0 lng0) as [props|]; [|reflexivity].
    simpl. unfold fetchBranches, Promise_all3, observationRequest,
      forecastRequest, alertsRequest. simpl.
    destruct (fetchStations net (toStr (observationStations props)))
      as [|ok1 [[| |ss]|]]; simpl; try reflexivity.
    destruct (station_features ss) as [| |fs]; simpl; try reflexivity.
    destruct (fs !! 0%nat) as [first|]; simpl; try reflexivity.
    destruct (station_properties first) as [| |sp]; simpl; try reflexivity.
    destruct (fetchObservation net _) as [|ok2 b2]; simpl; try reflexivity.
    destruct (fetchForecast net _) as [|ok3 b3]; simpl; try reflexivity.
    destruct (fetchAlerts net lat0 lng0) as [|ok4 b4]; reflexivity. }
  split; [exact Hgather|]. unfold fetchSettle. rewrite Hgather. reflexivity.
Qed.

End Requests.

(** ** The readings on the page *)

Section Readings.
Import LocationSearch.
Local Open Scope Q_scope.

(** A rounded number prints as an integer. *)
Lemma toStr_Math_round (x : Q) :
  toStr (Math_round (Fin x)) = Z_toString (Qfloor (x + (1 # 2))).
Proof.
  unfold Math_round, toStr, toStr_number, Number_toString.
  rewrite Qred_inject_Z. reflexivity.
Qed.

Lemma Qzero_Qeq (q : Q) : Qzero q = true <-> q == 0.
Proof.
  unfold Qzero, Qeq. simpl. rewrite Z.mul_1_r. apply Z.eqb_eq.
Qed.



(** The page after a fetch whose observation leaves the temperature
    alone. *)
Lemma fetch_keeps_temperature_placeholder (net : Network) (p : Page)
  (location : Location) (data : WeatherData) (c : CurrentData)
  (cur : Observation) :
  gather net (lat location) (lng location) = Some data ->
  current data = Val c ->
  current_properties c = Val cur ->
  (forall p0 : Page, updateTemperature p0 cur = p0) ->
  is_Some (tempElement p) ->
  tempElement (fetchWeatherData net p (lat location) (lng location) location)
  = Some noTemperature.
Proof.
  intros Hgather Hcur Hprops Hskip Hsome.
  unfold fetchWeatherData, fetchSettle. rewrite Hgather.
  unfold updateWeatherUI.
  destruct (showWeather_current
              (updateHeader (fetchStart p location) location) data)
    as (_ & -> & _).
  unfold updateCurrentConditions. rewrite Hcur, Hprops.
  destruct (updateCurrent_elements
              (updateHeader (fetchStart p location) location) cur) as (-> & _).
  rewrite Hskip.
  destruct (updateHeader_frame (fetchStart p location) location) as (-> & _).
  apply fetchStart_fields. exact Hsome.
Qed.

(** X20. A temperature reading of exactly 0 degrees Celsius is not shown:
    the guard takes the value 0 for a missing one, the temperature element
    is not written, and after the fetch it still holds the placeholder
    instead of 32 degrees Fahrenheit. *)
Theorem zero_celsius_is_not_shown (p : Page) (cur : Observation)
  (t : Quantity) (q : Q) :
  temperature cur = Val t ->
  value t = Val q ->
  q == 0 ->
  tempElement (updateCurrent p cur) = tempElement p
  /\ (forall (net : Network) (location : Location) (data : WeatherData)
        (c : CurrentData),
         gather net (lat location) (lng location) = Some data ->
         current data = Val c ->
         current_properties c = Val cur ->
         is_Some (tempElement p) ->
         tempElement (fetchWeatherData net p (lat location) (lng location)
                        location)
         = Some noTemperature).
Proof.
  intros Hcur Hval Hzero.
  assert (Hskip : forall p0 : Page, updateTemperature p0 cur = p0).
  { intros p0. unfold updateTemperature. rewrite Hcur, Hval.
    assert (Hfalsy : truthy (Val q) = false).
    { change (truthy (Val q)) with (negb (Qzero q)).
      apply Qzero_Qeq in Hzero. rewrite Hzero. reflexivity. }
    rewrite Hfalsy. destruct (tempElement p0); reflexivity. }
  split.
  - destruct (updateCurrent_elements p cur) as (-> & _).
    rewrite Hskip. reflexivity.
  - intros net location data c Hgather Hc Hprops Hsome.
    eapply fetch_keeps_temperature_placeholder; eassumption.
Qed.

Lemma zero_celsius_is_not_shown_witness :
  let freezing :=
    {| temperature := Val {| value := Val 0 |};
       textDescription := Val (lit "Snow"); relativeHumidity := null;
       windSpeed := null; windDirection := null |} in
  tempElement
    (fetchWeatherData (Samples.network true (fun _ => freezing))
       Samples.blankPage (lat Samples.nyc) (lng Samples.nyc) Samples.nyc)
  = Some noTemperature.
Proof.
  intros freezing.
  eapply (proj2 (zero_celsius_is_not_shown Samples.blankPage freezing
                   {| value := Val 0 |} 0 eq_refl eq_refl (Qeq_refl 0))
            (Samples.network true (fun _ => freezing)) Samples.nyc).
  - vm_compute. reflexivity.
  - reflexivity.
  - reflexivity.
  - eexists. reflexivity.
Defined.

(** X21. A measurement that is there without a reading is not shown as
    missing: with the value [null] the humidity reads 0%, the wind speed
    0 mph and the wind direction N; with no value at all they read NaN%,
    NaN mph and undefined. *)
Theorem measurement_without_reading (cur : Observation) (m : Quantity) :
  (value m = null ->
   (relativeHumidity cur = Val m -> humidityText cur = lit "0%")
   /\ (windSpeed cur = Val m -> windSpeedText cur = lit "0 mph")
   /\ (windDirection cur = Val m -> windDirectionText cur = lit "N"))
  /\ (value m = undefined ->
      (relativeHumidity cur = Val m -> humidityText cur = lit "NaN%")
      /\ (windSpeed cur = Val m -> windSpeedText cur = lit "NaN mph")
      /\ (windDirection cur = Val m ->
          windDirectionText cur = lit "undefined")).
Proof.
  split; intros Hv; repeat split; intros Hm.
  - unfold humidityText. rewrite Hm, Hv. reflexivity.
  - unfold windSpeedText. rewrite Hm, Hv. reflexivity.
  - unfold windDirectionText. rewrite Hm, Hv. reflexivity.
  - unfold humidityText. rewrite Hm, Hv. reflexivity.
  - unfold windSpeedText. rewrite Hm, Hv. reflexivity.
  - unfold windDirectionText. rewrite Hm, Hv. reflexivity.
Qed.

Lemma measurement_without_reading_witness :
  windSpeedText Samples.nullObservation = lit "0 mph".
Proof.
  destruct (measurement_without_reading Samples.nullObservation
              {| value := null |}) as [Hnull _].
  destruct (Hnull eq_refl) as (_ & Hwind & _).
  apply Hwind. reflexivity.
Defined.

End Readings.

(** ** The moment of the selection *)

Section SelectionMoment.
Import LocationSearch Shapes.

(** X22. As soon as a location is selected, the search box holds its display
    text, the dropdown is hidden and empty, and the page of a document that
    has the elements shows the placeholder of the temperature, the loading
    message and, in a header that reads as a current-conditions one, the
    name of the location. The details, the alerts and the forecast are not
    touched: they keep what the location before left, under the new
    header. *)
Theorem selection_shows_the_loading_state (s : Session) (location : Location) :
  let s' := selectLocation s location in
  searchValue (widget s') = displayText location
  /\ suggestionsHidden (widget s') = true
  /\ currentSuggestions (widget s') = []
  /\ selectedIndex (widget s') = -1
  /\ (is_Some (tempElement (page s)) ->
      tempElement (page s') = Some noTemperature)
  /\ (is_Some (conditionElement (page s)) ->
      conditionElement (page s') = Some loadingMessage)
  /\ (headerOpen (page s) -> h2 (page s') = Some (headerText location))
  /\ detailsContainer (page s') = detailsContainer (page s)
  /\ alertContent (page s') = alertContent (page s)
  /\ forecastContainer (page s') = forecastContainer (page s).
Proof.
  intros s'. unfold s', selectLocation. simpl.
  pose proof (fetchStart_fields (page s) location) as (Ht & Hc & Hd & Ha & Hf).
  repeat split; try assumption.
  intros (text & Hh & Hinc). unfold fetchStart.
  eapply updateWeatherUI_h2; eassumption.
Qed.

Lemma selection_shows_the_loading_state_witness :
  conditionElement
    (page (selectLocation
             (run (Samples.network true Samples.observeByStation)
                Samples.startSession [Select Samples.nyc; Settle 0])
             Samples.boston))
  = Some loadingMessage.
Proof.
  eapply selection_shows_the_loading_state.
  vm_compute. eexists. reflexivity.
Defined.

End SelectionMoment.

(** * Further properties of the unnamed script *)

Section UnnamedScript.
Import Suggest.


(** X24. The list of suggestions is hidden exactly when it is empty: after
    [showSuggestions] either the list is hidden and holds nothing, and no
    record is offered, or it is visible and holds one item per offered
    record, in order. *)
Theorem list_hidden_iff_empty (locs : list Location) (text : jsstring) :
  let box := showSuggestions locs text in
  (hidden box = true /\ innerHTML box = [] /\ Query locs text = [])
  \/ (hidden box = false /\ innerHTML box <> [] /\ Query locs text <> []
      /\ innerHTML box
         = concat (List.map (itemTemplate text) (Query locs text))).
Proof.
  intros box. unfold box, showSuggestions, Query.
  destruct (negb (truthy text) || (str_length text <? 2));
    [left; repeat split|].
  destruct (matches locs text) as [|loc ms] eqn:E; simpl;
    [left; repeat split|].
  right. repeat split; discriminate.
Qed.

End UnnamedScript.

(** ** Highlighting and selection in the unnamed script *)

Section UnnamedSelection.
Import Suggest Selection.

Lemma slice_prefix (s : jsstring) (n : Z) :
  0 <= n -> slice s 0 n = take (Z.to_nat n) s.
Proof.
  intros Hn. unfold slice, slice_pos, str_length.
  set (len := Z.of_nat (length s)).
  assert (Hlen : 0 <= len) by (unfold len; lia).
  replace (0 <? 0) with false by reflexivity.
  replace (n <? 0) with false by (symmetry; apply Z.ltb_ge; lia).
  rewrite (Z.min_l 0 len) by lia. rewrite slice_clamped, Z.sub_0_r.
  simpl (Z.to_nat 0). rewrite drop_0.
  destruct (Z.le_gt_cases n len) as [H | H].
  - rewrite Z.min_l by lia. reflexivity.
  - rewrite Z.min_r by lia. rewrite !take_ge by (unfold len in *; lia).
    reflexivity.
Qed.

Lemma slice_from_suffix (s : jsstring) (n : Z) :
  0 <= n -> slice_from s n = drop (Z.to_nat n) s.
Proof.
  intros Hn. unfold slice_from, slice, slice_pos, str_length.
  set (len := Z.of_nat (length s)).
  assert (Hlen : 0 <= len) by (unfold len; lia).
  replace (n <? 0) with false by (symmetry; apply Z.ltb_ge; lia).
  replace (len <? 0) with false by (symmetry; apply Z.ltb_ge; lia).
  rewrite Z.min_id, slice_clamped.
  rewrite take_ge by (rewrite length_drop; unfold len; lia).
  destruct (Z.le_gt_cases n len) as [H | H].
  - rewrite Z.min_l by lia. reflexivity.
  - rewrite Z.min_r by lia. rewrite !drop_ge by (unfold len in *; lia).
    reflexivity.
Qed.

(** X25. For a text and a query of the Basic Latin and Latin-1 blocks, the
    highlighted span starts at the beginning of the text and covers as many
    code units as the query has, wherever the query occurs in the text and
    whether it occurs or not. *)
Theorem highlight_starts_at_the_beginning (text query : jsstring) :
  Forall (fun c => (c <= 255)%N) text ->
  Forall (fun c => (c <= 255)%N) query ->
  highlightMatch text query
  = spanOpen ++ take (length query) text ++ spanClose
    ++ drop (length query) text.
Proof.
  intros Htext Hquery. unfold highlightMatch.
  rewrite !normalize_latin1 by assumption.
  change (indexOf [] []) with 0. cbv zeta.
  replace (0 <? 0) with false by reflexivity.
  rewrite Z.add_0_l.
  rewrite (slice_prefix text 0) by lia.
  rewrite slice_prefix, slice_from_suffix by (unfold str_length; lia).
  unfold str_length. rewrite Nat2Z.id. reflexivity.
Qed.

Lemma highlight_starts_at_the_beginning_witness :
  highlightMatch (lit "New York, NY 10001") (lit "york")
  = spanOpen ++ lit "New " ++ spanClose ++ lit "York, NY 10001".
Proof.
  rewrite highlight_starts_at_the_beginning.
  - reflexivity.
  - apply (bool_decide_unpack _). vm_compute. exact I.
  - apply (bool_decide_unpack _). vm_compute. exact I.
Defined.

Lemma enforceSelection_consistent (st : State) :
  consistent (enforceSelection st).
Proof.
  unfold consistent, enforceSelection. intros sel.
  destruct (selectedLocation st) as [sel0|] eqn:E.
  - destruct (bool_decide (searchValue st = selectionText sel0)) eqn:B.
    + apply bool_decide_eq_true in B. intros H. congruence.
    + simpl. discriminate.
  - rewrite E. discriminate.
Qed.

(** X26. After every click on a list item and after every blur, whatever
    happened before, the selection, when there is one, is the one whose text
    the search box shows; a click that is not on a list item, and the
    typing of a text, keep the selection there was. *)
Theorem selection_is_what_the_box_shows (st : State) (events : list Event) :
  consistent (run st (events ++ [Blurred]))
  /\ (forall ds : Dataset, consistent (run st (events ++ [Clicked (Some ds)])))
  /\ selectedLocation (run st (events ++ [Clicked None]))
     = selectedLocation (run st events)
  /\ (forall text : jsstring,
         selectedLocation (run st (events ++ [Typed text]))
         = selectedLocation (run st events)).
Proof.
  unfold run. rewrite !fold_left_app. simpl.
  split; [apply enforceSelection_consistent|].
  split; [|split; [reflexivity|]].
  - intros ds. rewrite fold_left_app. intros sel H. simpl in H.
    injection H as <-. reflexivity.
  - intros text. rewrite fold_left_app. reflexivity.
Qed.

(** X27. A click on the item of a record puts in the search box the city,
    the state and the zip of the record, which is its display text, clears
    the list and selects the record, with the numbers read from its latitude
    and longitude. A blur keeps that selection; typing any other text and
    leaving the box drops it, and the text typed stays. *)
Theorem click_selects_and_edit_unselects (st : State) (loc : Location)
  (text : jsstring) :
  let clicked := step st (Clicked (Some (datasetOf loc))) in
  searchValue clicked
  = Suggest.city loc ++ lit ", " ++ state_id loc ++ lit " " ++ Suggest.zip loc
  /\ suggestionsBox clicked = cleared
  /\ (exists sel : Selected,
         selectedLocation clicked = Some sel
         /\ Selection.lat sel = parseFloat (Suggest.lat loc)
         /\ Selection.lng sel = parseFloat (Suggest.lng loc)
         /\ selectedLocation (step clicked Blurred) = Some sel)
  /\ (text <> searchValue clicked ->
      selectedLocation (run clicked [Typed text; Blurred]) = None
      /\ searchValue (run clicked [Typed text; Blurred]) = text).
Proof.
  intros clicked. split; [reflexivity|]. split; [reflexivity|]. split.
  - eexists. split; [reflexivity|]. split; [reflexivity|].
    split; [reflexivity|].
    unfold clicked. simpl. unfold enforceSelection. simpl.
    rewrite bool_decide_eq_true_2 by reflexivity. reflexivity.
  - intros Hdiff. unfold run. simpl. unfold enforceSelection. simpl.
    rewrite bool_decide_eq_false_2 by exact Hdiff. split; reflexivity.
Qed.

Lemma click_selects_and_edit_unselects_witness :
  let st := {| locations := [Samples.newYork]; selectedLocation := None;
               searchValue := lit "new"; suggestionsBox := cleared |} in
  selectedLocation
    (run (step st (Clicked (Some (datasetOf Samples.newYork))))
       [Typed (lit "New York, NY 1000"); Blurred])
  = None.
Proof.
  intros st.
  apply (proj2 (proj2 (proj2 (click_selects_and_edit_unselects st
                                Samples.newYork (lit "New York, NY 1000"))))).
  vm_compute. discriminate.
Defined.

End UnnamedSelection.

(** ** A fetch that succeeds *)

Section SuccessfulFetch.
Import LocationSearch Shapes.

(** X28. When a fetch gathers its data and the observation has a
    description, a temperature reading other than 0, and the page has its
    elements, the fetch ends with the loading message replaced by the
    description, the placeholder by the rounded temperature, the details by
    the humidity and the wind, and the header, if it reads as a
    current-conditions one, naming the location. *)
Theorem successful_fetch_replaces_loading_state (net : Network) (p : Page)
  (location : Location) (data : WeatherData) (c : CurrentData)
  (cur : Observation) (t : Quantity) (description : jsstring) :
  gather net (lat location) (lng location) = Some data ->
  current data = Val c ->
  current_properties c = Val cur ->
  temperature cur = Val t -> truthy (value t) = true ->
  textDescription cur = Val description -> description <> [] ->
  let p' := fetchWeatherData net p (lat location) (lng location) location in
  (is_Some (tempElement p) -> tempElement p' = Some (temperatureText t))
  /\ (is_Some (conditionElement p) -> conditionElement p' = Some description)
  /\ (is_Some (detailsContainer p) ->
      detailsContainer p'
      = Some (detailsTemplate (humidityText cur) (windSpeedText cur)
                (windDirectionText cur)))
  /\ (headerOpen p -> h2 p' = Some (headerText location)).
Proof.
  intros Hgather Hcur Hprops Htemp Ht Hdesc Hne p'.
  set (p0 := fetchStart p location).
  pose proof (fetchStart_fields p location) as (Ft & Fc & Fd & _).
  fold p0 in Ft, Fc, Fd.
  assert (Hp' : p' = showWeather (updateHeader p0 location) data).
  { unfold p', fetchWeatherData, fetchSettle. rewrite Hgather. reflexivity. }
  pose proof (showWeather_current (updateHeader p0 location) data)
    as (_ & St & Sc & Sd).
  unfold updateCurrentConditions in St, Sc, Sd.
  rewrite Hcur, Hprops in St, Sc, Sd.
  pose proof (updateCurrent_elements (updateHeader p0 location) cur)
    as (Et & Ec & Ed).
  pose proof (updateHeader_frame p0 location) as (Gt & Gc & Gd & _).
  split; [|split; [|split]].
  - intros Hsome. rewrite Hp', St, Et.
    apply updateTemperature_reading; try assumption.
    rewrite Gt, Ft by exact Hsome. eexists. reflexivity.
  - intros Hsome. rewrite Hp', Sc, Ec. unfold updateCondition.
    rewrite Gc, Fc, Hdesc by exact Hsome.
    apply truthy_nonempty in Hne. rewrite Hne. reflexivity.
  - intros [d Hd]. rewrite Hp', Sd, Ed. unfold updateDetails.
    rewrite Gd, Fd, Hd. reflexivity.
  - intros (text & Hh & Hinc). unfold p', fetchWeatherData, fetchSettle.
    rewrite Hgather.
    apply (updateWeatherUI_h2 _ _ _ _ (headerText location)).
    + unfold p0, fetchStart. eapply updateWeatherUI_h2; eassumption.
    + apply headerText_includes.
Qed.

Lemma successful_fetch_replaces_loading_state_witness :
  conditionElement
    (fetchWeatherData (Samples.network true Samples.observeByStation)
       Samples.blankPage (lat Samples.boston) (lng Samples.boston)
       Samples.boston)
  = Some (lit "Rain").
Proof.
  eapply (successful_fetch_replaces_loading_state
            (Samples.network true Samples.observeByStation) Samples.blankPage
            Samples.boston _ _ Samples.coldRain {| value := Val 5%Q |}
            (lit "Rain")).
  - vm_compute. reflexivity.
  - reflexivity.
  - reflexivity.
  - reflexivity.
  - reflexivity.
  - reflexivity.
  - discriminate.
  - eexists. reflexivity.
Defined.

End SuccessfulFetch.

(** ** White space around the query *)

Section Trimming.
Import LocationSearch.

Lemma trimStart_length (s : jsstring) :
  (length (trimStart s) <= length s)%nat.
Proof.
  induction s as [|c s IH]; simpl; [lia|].
  destruct (isWhiteSpace c); simpl; lia.
Qed.

(** A string that [trimStart] leaves alone is empty or starts with a code
    unit that is not white space, and conversely. *)
Lemma trimStart_fixed (s : jsstring) :
  trimStart s = s <->
  match s with [] => True | c :: _ => isWhiteSpace c = false end.
Proof.
  destruct s as [|c s]; simpl; [tauto|].
  destruct (isWhiteSpace c) eqn:E; split; intros H;
    try reflexivity; try discriminate.
  pose proof (trimStart_length s) as Hlen. rewrite H in Hlen.
  simpl in Hlen. lia.
Qed.

Lemma trimStart_idempotent (s : jsstring) :
  trimStart (trimStart s) = trimStart s.
Proof.
  induction s as [|c s IH]; [reflexivity|]. simpl.
  destruct (isWhiteSpace c) eqn:E; [exact IH|].
  simpl. rewrite E. reflexivity.
Qed.

(** What [trimStart] removes is a prefix. *)
Lemma trimStart_suffix (s : jsstring) :
  exists removed : jsstring, s = removed ++ trimStart s.
Proof.
  induction s as [|c s [removed IH]]; [exists []; reflexivity|]. simpl.
  destruct (isWhiteSpace c).
  - exists (c :: removed). simpl. f_equal. exact IH.
  - exists []. reflexivity.
Qed.

Lemma trimEnd_idempotent (s : jsstring) : trimEnd (trimEnd s) = trimEnd s.
Proof.
  unfold trimEnd. rewrite rev_involutive, trimStart_idempotent. reflexivity.
Qed.

(** Trimming the end keeps the start trimmed. *)
Lemma trimStart_trimEnd (s : jsstring) :
  trimStart s = s -> trimStart (trimEnd s) = trimEnd s.
Proof.
  intros Hs. apply trimStart_fixed.
  destruct (trimEnd s) as [|c b] eqn:E; [exact I|].
  destruct (trimStart_suffix (rev s)) as [removed Hrem].
  apply (f_equal (@rev N)) in Hrem.
  rewrite rev_involutive, rev_app_distr in Hrem.
  fold (trimEnd s) in Hrem. rewrite E in Hrem.
  apply trimStart_fixed in Hs. rewrite Hrem in Hs. exact Hs.
Qed.

Lemma trim_idempotent (s : jsstring) : trim (trim s) = trim s.
Proof.
  unfold trim.
  rewrite (trimStart_trimEnd (trimStart s)) by apply trimStart_idempotent.
  apply trimEnd_idempotent.
Qed.

(** X29. White space around the text of the search box plays no part in the
    suggestions: the text and the text trimmed give the same suggestions,
    and so does giving the focus back to the box. *)
Theorem surrounding_white_space_is_ignored (w : Widget) (text : jsstring) :
  Query w (trim text) = Query w text
  /\ (2 <= str_length (trim text) ->
      currentSuggestions (handleFocus (set_searchValue text w))
      = Query w text).
Proof.
  split.
  - rewrite !Query_cases, trim_idempotent. reflexivity.
  - intros Hlen. unfold handleFocus. simpl.
    replace (2 <=? str_length (trim text)) with true
      by (symmetry; apply Z.leb_le; exact Hlen).
    rewrite showSuggestions_current, Query_cases. simpl.
    replace (str_length (trim text) <? 2) with false
      by (symmetry; apply Z.ltb_ge; exact Hlen).
    reflexivity.
Qed.

Lemma surrounding_white_space_is_ignored_witness :
  currentSuggestions
    (handleFocus (set_searchValue (lit "  bos ") Samples.twoCities))
  = Query Samples.twoCities (lit "  bos ").
Proof.
  apply (proj2 (surrounding_white_space_is_ignored Samples.twoCities
                  (lit "  bos "))).
  vm_compute. discriminate.
Defined.

End Trimming.
